(** * ai-ops-cost-analyzer: classification, savings estimation and report synthesis

    A shallow embedding of [app/models.py], [app/analysis.py],
    [app/ai_service.py] and the endpoints of [app/main.py].

    Data model of the embedding:
    - a Python [str] is a list of Unicode code points ([PyStr.str]);
    - a Python [float] is a binary64 number, Rocq's primitive [float], with
      the IEEE 754 operations the interpreter uses (round to nearest even);
    - a Python [int] is a [Z];
    - a raised exception is the [Raise] branch of [result]. *)

From Stdlib Require Import ZArith NArith List Bool Lia String Ascii.
From Stdlib Require Import DecimalString Permutation Floats.
Import ListNotations.

Set Warnings "-inexact-float".

(** ** Exceptions *)

Inductive exn : Set :=
| ValueError.

Inductive result (A : Type) : Type :=
| Ok (a : A)
| Raise (e : exn).

Arguments Ok {A} a.
Arguments Raise {A} e.

Definition bind {A B : Type} (m : result A) (k : A -> result B) : result B :=
  match m with
  | Ok a => k a
  | Raise e => Raise e
  end.

Notation "x <- m ;; k" := (bind m (fun x => k))
  (at level 61, m at next level, right associativity).

(** ** Python strings *)

Module PyStr.

Definition char := N.
Definition str := list char.

(** An ASCII literal of the source, as code points. *)
Definition lit (s : string) : str := map N_of_ascii (list_ascii_of_string s).

(** A one-character ASCII literal. *)
Definition chr (c : ascii) : char := N_of_ascii c.

Definition newline : char := 10%N.

Definition eqb (a b : str) : bool :=
  if list_eq_dec N.eq_dec a b then true else false.

(** [str.isspace] on one code point: the characters [str.strip()] removes. *)
Definition isspace (c : char) : bool :=
  ((9 <=? c) && (c <=? 13) || (28 <=? c) && (c <=? 32) ||
   (c =? 133) || (c =? 160) || (c =? 5760) ||
   (8192 <=? c) && (c <=? 8202) || (c =? 8232) || (c =? 8233) ||
   (c =? 8239) || (c =? 8287) || (c =? 12288))%N.

Fixpoint dropwhile (p : char -> bool) (s : str) : str :=
  match s with
  | [] => []
  | c :: s' => if p c then dropwhile p s' else s
  end.

(** [s.lstrip(chars)] and [s.strip()]. *)
Definition lstrip_chars (chars : str) (s : str) : str :=
  dropwhile (fun c => existsb (N.eqb c) chars) s.

Definition strip_with (p : char -> bool) (s : str) : str :=
  rev (dropwhile p (rev (dropwhile p s))).

Definition strip (s : str) : str := strip_with isspace s.

(** [s.split(sep)] for a one-character separator: never the empty list. *)
Fixpoint split (sep : char) (s : str) : list str :=
  match s with
  | [] => [[]]
  | c :: s' =>
      if (c =? sep)%N then [] :: split sep s'
      else match split sep s' with
           | l :: ls => (c :: l) :: ls
           | [] => [[c]]
           end
  end.

Fixpoint startswith (s prefix : str) : bool :=
  match prefix, s with
  | [], _ => true
  | p :: prefix', c :: s' => (c =? p)%N && startswith s' prefix'
  | _ :: _, [] => false
  end.

(** [sub in s]. *)
Fixpoint contains (sub s : str) : bool :=
  startswith s sub ||
  match s with
  | [] => false
  | _ :: s' => contains sub s'
  end.

(** [s.lower()]. The ASCII capitals, and the two code points outside ASCII
    whose lower case holds an ASCII letter (U+0130, U+212A), are mapped as
    Python maps them; every other code point outside ASCII is mapped by
    Python to code points outside ASCII again and is left as it is here, which
    a search for an ASCII word cannot tell apart. *)
Definition lower_char (c : char) : str :=
  if ((65 <=? c) && (c <=? 90))%N then [(c + 32)%N]
  else if (c =? 304)%N then [105%N; 775%N]
  else if (c =? 8490)%N then [107%N]
  else [c].

Definition lower (s : str) : str := flat_map lower_char s.

(** [s.replace(old, '')] for a one-character [old]. *)
Definition remove_char (old : char) (s : str) : str :=
  filter (fun c => negb (c =? old)%N) s.

(** [sep.join(items)]. *)
Fixpoint join (sep : str) (items : list str) : str :=
  match items with
  | [] => []
  | [x] => x
  | x :: rest => x ++ sep ++ join sep rest
  end.

(** Decimal digits of a natural number, and [str(n)] of an [int]. *)
Definition of_N (n : N) : str := lit (NilZero.string_of_uint (N.to_uint n)).

Definition of_int (n : Z) : str :=
  match n with
  | Zneg p => lit "-" ++ of_N (Npos p)
  | _ => of_N (Z.to_N n)
  end.

End PyStr.

Abbreviation str := PyStr.str.
Abbreviation lit := PyStr.lit.

(** ** Python floats *)

Module PyFloat.

Import PyStr.

(** [float(n)] of a non-negative [int]: the nearest binary64 number. *)
Definition of_nat (n : nat) : float :=
  SF2Prim (binary_normalize prec emax (Z.of_nat n) 0 false).

(** [sum(xs)] of floats: the built-in starts from the [int] 0 and adds from
    the left (the plain loop of CPython up to 3.11; 3.12 and later add a
    compensation term, which changes the result only where a partial sum
    is rounded). *)
Definition sum (xs : list float) : float :=
  fold_left PrimFloat.add xs 0%float.

(** *** [float(s)] of a string

    The grammar of the built-in: surrounding white space, a sign, then
    [inf], [infinity] or [nan] in any case, or a decimal number with an
    optional fraction and exponent, where single underscores may separate
    digits. The value is the binary64 number nearest to the decimal one.
    Digits of other scripts, which the built-in also reads, are not
    modelled. *)

Definition is_digit (c : char) : bool := ((48 <=? c) && (c <=? 57))%N.

Fixpoint digitpart_loop (s : str) (acc count : N) : N * N * str :=
  match s with
  | c :: s' =>
      if is_digit c then digitpart_loop s' (10 * acc + (c - 48))%N (count + 1)%N
      else if (c =? 95)%N then
        match s' with
        | d :: s'' =>
            if is_digit d
            then digitpart_loop s'' (10 * acc + (d - 48))%N (count + 1)%N
            else (acc, count, s)
        | [] => (acc, count, s)
        end
      else (acc, count, s)
  | [] => (acc, count, s)
  end.

(** A run of digits continuing the number [acc], single underscores (95)
    between digits skipped; [None] when [s] does not start with a digit. *)
Definition digitpart (s : str) (acc : N) : option (N * N * str) :=
  match s with
  | c :: _ => if is_digit c then Some (digitpart_loop s acc 0%N) else None
  | [] => None
  end.

(** A leading "-" (45) or "+" (43). *)
Definition read_sign (s : str) : bool * str :=
  match s with
  | 45%N :: s' => (true, s')
  | 43%N :: s' => (false, s')
  | _ => (false, s)
  end.

(** Mantissa and decimal exponent of an unsigned decimal number; 46 is
    ".", 101 and 69 are "e" and "E". *)
Definition parse_decimal (s : str) : option (N * Z) :=
  let '(m, ni, rest1) :=
    match digitpart s 0%N with Some r => r | None => (0%N, 0%N, s) end in
  let '(m, nf, rest2) :=
    match rest1 with
    | 46%N :: rest =>
        match digitpart rest m with Some r => r | None => (m, 0%N, rest) end
    | _ => (m, 0%N, rest1)
    end in
  if (ni + nf =? 0)%N then None
  else
    match rest2 with
    | [] => Some (m, (- Z.of_N nf)%Z)
    | c :: rest =>
        if ((c =? 101) || (c =? 69))%N then
          let '(neg, rest) := read_sign rest in
          match digitpart rest 0%N with
          | Some (e, _, []) =>
              Some (m, ((if neg then - Z.of_N e else Z.of_N e) - Z.of_N nf)%Z)
          | _ => None
          end
        else None
    end.

(** The binary64 number nearest to [m * 10 ^ e10], ties to even. *)
Definition of_decimal (m : N) (e10 : Z) : float :=
  match m with
  | N0 => 0%float
  | Npos p =>
      SF2Prim
        (if (0 <=? e10)%Z
         then binary_normalize prec emax (Zpos p * 10 ^ e10) 0 false
         else
           let '(q, e, l) :=
             SFdiv_core_binary prec emax (Zpos p) 0 (10 ^ (- e10)) 0 in
           binary_round_aux prec emax false q e l)
  end.

(** The white space [float] skips at both ends: that of [str.strip] but
    for the four separators U+001C to U+001F. *)
Definition is_space (c : char) : bool :=
  isspace c && negb ((28 <=? c) && (c <=? 31))%N.

Definition of_str (s : str) : option float :=
  let '(neg, body) := read_sign (strip_with is_space s) in
  let word := lower body in
  let magnitude :=
    if eqb word (lit "inf") || eqb word (lit "infinity") then Some infinity
    else if eqb word (lit "nan") then Some nan
    else match parse_decimal body with
         | Some (m, e10) => Some (of_decimal m e10)
         | None => None
         end in
  match magnitude with
  | Some x => Some (if neg then (- x)%float else x)
  | None => None
  end.

(** *** [format(x, ',.2f')]

    The exact value of the float rounded to two decimals (ties to even),
    the integer part grouped by thousands. *)

Definition cents (m : positive) (e : Z) : Z :=
  match e with
  | Zneg k =>
      let n := (Zpos m * 100)%Z in
      let d := (2 ^ Zpos k)%Z in
      let q := (n / d)%Z in
      match (2 * (n mod d) ?= d)%Z with
      | Lt => q
      | Gt => (q + 1)%Z
      | Eq => if Z.even q then q else (q + 1)%Z
      end
  | _ => (Zpos m * 2 ^ e * 100)%Z
  end.

(** Digits from the least significant one; [k] counts the digits of the
    group being written. *)
Fixpoint group3_rev (ds : str) (k : nat) : str :=
  match ds with
  | [] => []
  | d :: ds' =>
      match k with
      | 3%nat => 44%N :: d :: group3_rev ds' 1
      | _ => d :: group3_rev ds' (S k)
      end
  end.

Definition group_thousands (ds : str) : str :=
  rev (group3_rev (rev ds) 0).

Definition two_digits (n : Z) : str :=
  (if (n <? 10)%Z then lit "0" else []) ++ of_int n.

Definition format_money (x : float) : str :=
  match Prim2SF x with
  | S754_nan => lit "nan"
  | S754_infinity s => if s then lit "-inf" else lit "inf"
  | S754_zero s => if s then lit "-0.00" else lit "0.00"
  | S754_finite s m e =>
      let c := cents m e in
      (if s then lit "-" else []) ++
      group_thousands (of_int (c / 100)%Z) ++ lit "." ++ two_digits (c mod 100)%Z
  end.

End PyFloat.

(** ** [app/models.py] *)

Module Models.

Inductive ResourceStatus : Set :=
| ACTIVE
| IDLE
| STOPPED
| TERMINATED.

(** The values of the enumeration, which the records store
    ([use_enum_values]). *)
Definition status_value (s : ResourceStatus) : str :=
  match s with
  | ACTIVE => lit "active"
  | IDLE => lit "idle"
  | STOPPED => lit "stopped"
  | TERMINATED => lit "terminated"
  end.

(** A usage field holds a string or a number: the analyzer tests which.
    A [CostRecord] is taken as built. A [CostRecordResponse] is built by
    [from_cost_record], inside the analysis, and what pydantic does there
    is part of the embedding ([validate_usage]). *)
Inductive usage : Set :=
| UStr (s : str)
| UNum (x : float).

Record pydate : Set := { year : Z; month : Z; day : Z }.

(** [daily_cost] is declared with [ge=0]: a record is built only with a
    daily cost that is at least 0 (so not a NaN). *)
Record CostRecord : Set := {
  service : str;
  region : str;
  instance_type : str;
  daily_cost : float;
  usage_cpu_avg : usage;
  usage_mem_avg : usage;
  date : pydate;
  status : ResourceStatus
}.

(** [CostRecordResponse] extends [CostRecord]: [cost_record] holds the
    inherited fields. *)
Record CostRecordResponse : Set := {
  cost_record : CostRecord;
  usage_cpu_avg_float : float;
  usage_mem_avg_float : float;
  monthly_cost_estimate : float;
  is_underutilized : bool;
  is_idle : bool;
  is_high_cost_anomaly : bool
}.

Definition usage_float (u : usage) : result float :=
  match u with
  | UStr s =>
      match PyFloat.of_str (PyStr.remove_char (PyStr.chr "%") s) with
      | Some x => Ok x
      | None => Raise ValueError
      end
  | UNum x => Ok x
  end.

(** The validator [parse_usage_percentage] of [CostRecord], which
    [CostRecordResponse] inherits. It runs before the field is checked
    ([mode='before']) and returns a float. *)
Definition parse_usage_percentage (v : usage) : result float :=
  match v with
  | UStr s =>
      match PyFloat.of_str (PyStr.remove_char (PyStr.chr "%") s) with
      | Some x => Ok x
      | None => Raise ValueError
      end
  | UNum x => Ok x
  end.

(** A field declared [str] takes a string and refuses a number: pydantic
    does not turn a float into a string, and raises [ValidationError], a
    [ValueError]. *)
Definition str_field (v : usage) : result str :=
  match v with
  | UStr s => Ok s
  | UNum _ => Raise ValueError
  end.

(** What the construction of a model does with a usage field: the
    validator, then the check of the declared type on what it returned. *)
Definition validate_usage (v : usage) : result str :=
  x <- parse_usage_percentage v ;;
  str_field (UNum x).

(** The call of [cls] on the fields of [record.model_dump()] and the
    computed ones validates every field anew: the two usage fields go
    through [validate_usage]. *)
Definition from_cost_record (record : CostRecord)
    (is_underutilized is_idle is_high_cost_anomaly : bool)
    : result CostRecordResponse :=
  cpu_float <- usage_float (usage_cpu_avg record) ;;
  mem_float <- usage_float (usage_mem_avg record) ;;
  _ <- validate_usage (usage_cpu_avg record) ;;
  _ <- validate_usage (usage_mem_avg record) ;;
  Ok {| cost_record := record;
        usage_cpu_avg_float := cpu_float;
        usage_mem_avg_float := mem_float;
        monthly_cost_estimate := (daily_cost record * 30)%float;
        is_underutilized := is_underutilized;
        is_idle := is_idle;
        is_high_cost_anomaly := is_high_cost_anomaly |}.

Record AnalysisSummary : Set := {
  total_records : Z;
  total_daily_cost : float;
  total_monthly_cost_estimate : float;
  underutilized_count : Z;
  idle_count : Z;
  high_cost_anomaly_count : Z;
  potential_monthly_savings : float;
  underutilized_resources : list CostRecordResponse;
  idle_resources : list CostRecordResponse;
  high_cost_anomalies : list CostRecordResponse
}.

Record CostSavingsReport : Set := {
  summary : str;
  findings : list str;
  recommendations : list str;
  estimated_savings : float;
  priority_actions : list str;
  analysis_summary : AnalysisSummary
}.

End Models.

(** ** [app/analysis.py] *)

Module CostAnalyzer.

Import Models.

Definition UNDERUTILIZED_CPU_THRESHOLD : float := 20.0%float.
Definition UNDERUTILIZED_MEM_THRESHOLD : float := 20.0%float.
Definition IDLE_CPU_THRESHOLD : float := 5.0%float.
Definition IDLE_MEM_THRESHOLD : float := 5.0%float.
Definition HIGH_COST_MULTIPLIER : float := 2.0%float.
Definition SAVINGS_ESTIMATE_UNDERUTILIZED : float := 0.3%float.
Definition SAVINGS_ESTIMATE_IDLE : float := 0.8%float.
Definition SAVINGS_ESTIMATE_ANOMALY : float := 0.2%float.

Definition status_eqb (a b : ResourceStatus) : bool :=
  PyStr.eqb (status_value a) (status_value b).

Definition parse_usage_percentage (usage_str : usage) : result float :=
  match usage_str with
  | UStr s =>
      match PyFloat.of_str (PyStr.remove_char (PyStr.chr "%") s) with
      | Some x => Ok x
      | None => Raise ValueError
      end
  | UNum x => Ok x
  end.

Definition is_underutilized (record : CostRecord) : result bool :=
  cpu <- parse_usage_percentage (usage_cpu_avg record) ;;
  mem <- parse_usage_percentage (usage_mem_avg record) ;;
  Ok (status_eqb (status record) ACTIVE &&
      (cpu <? UNDERUTILIZED_CPU_THRESHOLD)%float &&
      (mem <? UNDERUTILIZED_MEM_THRESHOLD)%float).

Definition is_idle (record : CostRecord) : result bool :=
  if status_eqb (status record) IDLE then Ok true
  else
    cpu <- parse_usage_percentage (usage_cpu_avg record) ;;
    mem <- parse_usage_percentage (usage_mem_avg record) ;;
    Ok ((cpu <? IDLE_CPU_THRESHOLD)%float && (mem <? IDLE_MEM_THRESHOLD)%float).

(** [record.daily_cost > avg_cost * HIGH_COST_MULTIPLIER]. *)
Definition is_high_cost_anomaly (record : CostRecord) (avg_cost : float) : bool :=
  (avg_cost * HIGH_COST_MULTIPLIER <? daily_cost record)%float.

(** The three lists the first loop of [analyze_records] appends to. *)
Definition buckets : Set :=
  (list CostRecordResponse * list CostRecordResponse * list CostRecordResponse)%type.

Fixpoint classify_loop (avg_cost : float) (records : list CostRecord)
    (acc : buckets) : result buckets :=
  match records with
  | [] => Ok acc
  | record :: rest =>
      is_underutilized <- is_underutilized record ;;
      is_idle <- is_idle record ;;
      let is_anomaly := is_high_cost_anomaly record avg_cost in
      response <- from_cost_record record is_underutilized is_idle is_anomaly ;;
      let '(underutilized, idle, anomalies) := acc in
      classify_loop avg_cost rest
        (if is_underutilized then underutilized ++ [response] else underutilized,
         if is_idle then idle ++ [response] else idle,
         if is_anomaly then anomalies ++ [response] else anomalies)
  end.

(** The three loops that accumulate [potential_savings]. *)
Definition add_underutilized (potential_savings : float)
    (resource : CostRecordResponse) : float :=
  if negb (Models.is_idle resource)
  then (potential_savings +
        monthly_cost_estimate resource * SAVINGS_ESTIMATE_UNDERUTILIZED)%float
  else potential_savings.

Definition add_idle (potential_savings : float)
    (resource : CostRecordResponse) : float :=
  (potential_savings + monthly_cost_estimate resource * SAVINGS_ESTIMATE_IDLE)%float.

Definition add_anomaly (potential_savings : float)
    (resource : CostRecordResponse) : float :=
  if negb (Models.is_idle resource) && negb (Models.is_underutilized resource)
  then (potential_savings +
        monthly_cost_estimate resource * SAVINGS_ESTIMATE_ANOMALY)%float
  else potential_savings.

Definition potential_savings_of (underutilized idle anomalies : list CostRecordResponse)
    : float :=
  let potential_savings := 0.0%float in
  let potential_savings := fold_left add_underutilized underutilized potential_savings in
  let potential_savings := fold_left add_idle idle potential_savings in
  fold_left add_anomaly anomalies potential_savings.

Definition len {A : Type} (l : list A) : Z := Z.of_nat (List.length l).

Definition analyze_records (records : list CostRecord) : result AnalysisSummary :=
  match records with
  | [] =>
      Ok {| total_records := 0;
            total_daily_cost := 0.0%float;
            total_monthly_cost_estimate := 0.0%float;
            underutilized_count := 0;
            idle_count := 0;
            high_cost_anomaly_count := 0;
            potential_monthly_savings := 0.0%float;
            underutilized_resources := [];
            idle_resources := [];
            high_cost_anomalies := [] |}
  | _ :: _ =>
      let total_daily_cost := PyFloat.sum (map daily_cost records) in
      let avg_cost := (total_daily_cost / PyFloat.of_nat (List.length records))%float in
      acc <- classify_loop avg_cost records ([], [], []) ;;
      let '(underutilized, idle, anomalies) := acc in
      let potential_savings := potential_savings_of underutilized idle anomalies in
      Ok {| total_records := len records;
            total_daily_cost := total_daily_cost;
            total_monthly_cost_estimate := (total_daily_cost * 30)%float;
            underutilized_count := len underutilized;
            idle_count := len idle;
            high_cost_anomaly_count := len anomalies;
            potential_monthly_savings := potential_savings;
            underutilized_resources := underutilized;
            idle_resources := idle;
            high_cost_anomalies := anomalies |}
  end.

End CostAnalyzer.

(** ** [app/ai_service.py] *)

Module AIService.

Import Models.

Definition money (x : float) : str := lit "$" ++ PyFloat.format_money x.

(** [sum(r.monthly_cost_estimate * 0.8 for r in resources)]. *)
Definition idle_savings (resources : list CostRecordResponse) : float :=
  PyFloat.sum (map (fun r => (monthly_cost_estimate r * 0.8)%float) resources).

Definition nonempty {A : Type} (l : list A) : bool :=
  match l with
  | [] => false
  | _ :: _ => true
  end.

Definition STANDING_SCHEDULING : str :=
  lit "Implement automated resource scheduling for non-production environments.".

Definition STANDING_ALERTS : str :=
  lit "Set up cost alerts and budgets to prevent future cost anomalies.".

Definition _generate_mock_report (analysis_summary : AnalysisSummary)
    : CostSavingsReport :=
  let summary_text :=
    lit "Analysis of " ++ PyStr.of_int (total_records analysis_summary) ++
    lit " cloud resources reveals significant cost optimization opportunities. " ++
    lit "Current monthly spend is " ++
    money (total_monthly_cost_estimate analysis_summary) ++
    lit ", with potential savings of " ++
    money (potential_monthly_savings analysis_summary) ++ lit " per month." in
  let findings := [] in
  let findings :=
    if (0 <? idle_count analysis_summary)%Z
    then findings ++
         [lit "Found " ++ PyStr.of_int (idle_count analysis_summary) ++
          lit " idle resources that can be stopped or terminated, " ++
          lit "saving approximately " ++
          money (idle_savings (idle_resources analysis_summary)) ++ lit "/month"]
    else findings in
  let findings :=
    if (0 <? underutilized_count analysis_summary)%Z
    then findings ++
         [lit "Identified " ++ PyStr.of_int (underutilized_count analysis_summary) ++
          lit " underutilized resources that can be downsized to smaller instance types."]
    else findings in
  let findings :=
    if (0 <? high_cost_anomaly_count analysis_summary)%Z
    then findings ++
         [lit "Detected " ++ PyStr.of_int (high_cost_anomaly_count analysis_summary) ++
          lit " high-cost anomalies requiring optimization review."]
    else findings in
  let recommendations := [] in
  let recommendations :=
    if nonempty (idle_resources analysis_summary)
    then recommendations ++
         [lit "Immediately stop or terminate idle resources, especially: " ++
          PyStr.join (lit ", ")
            (map (fun r => service (cost_record r))
                 (firstn 3 (idle_resources analysis_summary)))]
    else recommendations in
  let recommendations :=
    if nonempty (underutilized_resources analysis_summary)
    then recommendations ++
         [lit "Downsize underutilized resources to smaller instance types. " ++
          lit "Consider right-sizing based on actual usage patterns."]
    else recommendations in
  let recommendations :=
    if nonempty (high_cost_anomalies analysis_summary)
    then recommendations ++
         [lit "Review high-cost resources for optimization opportunities. " ++
          lit "Consider reserved instances or spot instances where appropriate."]
    else recommendations in
  let recommendations := recommendations ++ [STANDING_SCHEDULING] in
  let recommendations := recommendations ++ [STANDING_ALERTS] in
  let priority_actions := [] in
  let priority_actions :=
    if nonempty (idle_resources analysis_summary)
    then priority_actions ++
         [lit "Terminate " ++
          PyStr.of_int (CostAnalyzer.len (idle_resources analysis_summary)) ++
          lit " idle resources (highest impact: " ++
          money (idle_savings (idle_resources analysis_summary)) ++
          lit "/month savings)"]
    else priority_actions in
  let priority_actions :=
    if nonempty (underutilized_resources analysis_summary)
    then priority_actions ++
         [lit "Right-size " ++
          PyStr.of_int (CostAnalyzer.len (underutilized_resources analysis_summary)) ++
          lit " underutilized resources"]
    else priority_actions in
  let priority_actions :=
    if nonempty (high_cost_anomalies analysis_summary)
    then priority_actions ++
         [lit "Review and optimize " ++
          PyStr.of_int (CostAnalyzer.len (high_cost_anomalies analysis_summary)) ++
          lit " high-cost resources"]
    else priority_actions in
  {| summary := summary_text;
     findings := findings;
     recommendations := recommendations;
     estimated_savings := potential_monthly_savings analysis_summary;
     priority_actions := priority_actions;
     analysis_summary := analysis_summary |}.

(** *** [_parse_ai_response] *)

(** The values [current_section] takes; [None] is Python's [None]. *)
Inductive section_name : Set :=
| SUMMARY
| FINDINGS
| RECOMMENDATIONS
| PRIORITY.

(** The local variables the loop over the lines updates. *)
Record locals : Set := {
  l_summary : str;
  l_findings : list str;
  l_recommendations : list str;
  l_priority_actions : list str;
  current_section : option section_name
}.

Definition initial : locals :=
  {| l_summary := [];
     l_findings := [];
     l_recommendations := [];
     l_priority_actions := [];
     current_section := None |}.

Definition set_section (st : locals) (s : section_name) : locals :=
  {| l_summary := l_summary st;
     l_findings := l_findings st;
     l_recommendations := l_recommendations st;
     l_priority_actions := l_priority_actions st;
     current_section := Some s |}.

(** The bullet character U+2022. *)
Definition BULLET : PyStr.char := 8226%N.

(** The section a line switches to, by the first four tests of the chain. *)
Definition section_token (line : str) : option section_name :=
  let low := PyStr.lower line in
  if PyStr.contains (lit "summary") low || PyStr.contains (lit "executive") low
  then Some SUMMARY
  else if PyStr.contains (lit "finding") low then Some FINDINGS
  else if PyStr.contains (lit "recommendation") low then Some RECOMMENDATIONS
  else if PyStr.contains (lit "priority") low || PyStr.contains (lit "action") low
  then Some PRIORITY
  else None.

Definition is_bullet (line : str) : bool :=
  PyStr.startswith line (lit "-") || PyStr.startswith line [BULLET] ||
  PyStr.startswith line (lit "*").

(** [line.lstrip('-•* ').strip()]. *)
Definition bullet_item (line : str) : str :=
  PyStr.strip
    (PyStr.lstrip_chars
       [PyStr.chr "-"; BULLET; PyStr.chr "*"; PyStr.chr " "] line).

Definition append_item (st : locals) (item : str) : locals :=
  match current_section st with
  | Some FINDINGS =>
      {| l_summary := l_summary st;
         l_findings := l_findings st ++ [item];
         l_recommendations := l_recommendations st;
         l_priority_actions := l_priority_actions st;
         current_section := current_section st |}
  | Some RECOMMENDATIONS =>
      {| l_summary := l_summary st;
         l_findings := l_findings st;
         l_recommendations := l_recommendations st ++ [item];
         l_priority_actions := l_priority_actions st;
         current_section := current_section st |}
  | Some PRIORITY =>
      {| l_summary := l_summary st;
         l_findings := l_findings st;
         l_recommendations := l_recommendations st;
         l_priority_actions := l_priority_actions st ++ [item];
         current_section := current_section st |}
  | _ => st
  end.

(** One turn of the loop, on one element of [lines]. *)
Definition parse_line (st : locals) (raw : str) : locals :=
  let line := PyStr.strip raw in
  match line with
  | [] => st
  | _ :: _ =>
      match section_token line with
      | Some s => set_section st s
      | None =>
          if is_bullet line then append_item st (bullet_item line)
          else
            match current_section st, l_summary st with
            | Some SUMMARY, [] =>
                {| l_summary := line;
                   l_findings := l_findings st;
                   l_recommendations := l_recommendations st;
                   l_priority_actions := l_priority_actions st;
                   current_section := current_section st |}
            | _, _ => st
            end
      end
  end.

Definition parse_lines (ai_response : str) : locals :=
  fold_left parse_line (PyStr.split PyStr.newline ai_response) initial.

(** [xs or default]. *)
Definition or_default {A : Type} (xs default : list A) : list A :=
  match xs with
  | [] => default
  | _ :: _ => xs
  end.

Definition _parse_ai_response (ai_response : str)
    (analysis_summary : AnalysisSummary) : CostSavingsReport :=
  let st := parse_lines ai_response in
  if negb (nonempty (l_summary st)) || negb (nonempty (l_findings st))
  then _generate_mock_report analysis_summary
  else
    {| summary :=
         or_default (l_summary st)
           (lit "Analysis of " ++ PyStr.of_int (total_records analysis_summary) ++
            lit " resources.");
       findings :=
         or_default (firstn 10 (l_findings st))
           [lit "Review cost data for optimization opportunities"];
       recommendations :=
         or_default (firstn 10 (l_recommendations st))
           [lit "Implement cost monitoring"];
       estimated_savings := potential_monthly_savings analysis_summary;
       priority_actions :=
         or_default (firstn 5 (l_priority_actions st)) [lit "Review findings"];
       analysis_summary := analysis_summary |}.

End AIService.

(** ** Vocabulary of the specification *)

Module Spec.

Import Models.



(** A positive finite constant: 30 and the three savings rates are. *)
Definition positive_finite (c : float) : Prop :=
  exists m e, Prim2SF c = S754_finite false m e.

(** The one credit of a record, by the priority idle, underutilized,
    anomaly. *)
Definition credit (r : CostRecordResponse) : float :=
  if is_idle r
  then (monthly_cost_estimate r * CostAnalyzer.SAVINGS_ESTIMATE_IDLE)%float
  else if is_underutilized r
  then (monthly_cost_estimate r * CostAnalyzer.SAVINGS_ESTIMATE_UNDERUTILIZED)%float
  else if is_high_cost_anomaly r
  then (monthly_cost_estimate r * CostAnalyzer.SAVINGS_ESTIMATE_ANOMALY)%float
  else 0%float.

Definition no_category (r : CostRecordResponse) : bool :=
  negb (is_idle r) && negb (is_underutilized r) && negb (is_high_cost_anomaly r).

Definition underutilized_only (r : CostRecordResponse) : bool :=
  is_underutilized r && negb (is_idle r).

Definition anomaly_only (r : CostRecordResponse) : bool :=
  is_high_cost_anomaly r && (negb (is_idle r) && negb (is_underutilized r)).

(** The order in which the credits are added up: the records of no
    category, then the three loops over the buckets of [analyze_records]. *)
Definition credit_order (responses : list CostRecordResponse)
    : list CostRecordResponse :=
  filter no_category responses ++ filter underutilized_only responses ++
  filter is_idle responses ++ filter anomaly_only responses.

Definition sum_credits (order : list CostRecordResponse) : float :=
  fold_left (fun acc r => (acc + credit r)%float) order 0%float.

(** The words that switch the section of the narrative parser. *)
Definition TOKENS : list str :=
  [lit "summary"; lit "executive"; lit "finding"; lit "recommendation";
   lit "priority"; lit "action"].

Definition has_token (line : str) : bool :=
  existsb (fun token => PyStr.contains token (PyStr.lower line)) TOKENS.

(** The items the parser has collected, of the three lists. *)
Definition items (st : AIService.locals) : list str :=
  AIService.l_findings st ++ AIService.l_recommendations st ++
  AIService.l_priority_actions st.

End Spec.

(** ** Sample cohorts *)

Module Samples.

Import Models.

Local Open Scope string_scope.

Definition record_of (name : string) (cost : float) (cpu mem : string)
    (st : ResourceStatus) : CostRecord :=
  {| service := lit name;
     region := lit "us-east-1";
     instance_type := lit "t3.medium";
     daily_cost := cost;
     usage_cpu_avg := UStr (lit cpu);
     usage_mem_avg := UStr (lit mem);
     date := {| year := 2024; month := 1; day := 15 |};
     status := st |}.

(** The cohort of the end-to-end scenario of the specification. *)
Definition scenario : list CostRecord :=
  [record_of "A" 10%float "2" "2" ACTIVE;
   record_of "B" 20%float "50%" "50%" IDLE;
   record_of "C" 100%float "90" "90" ACTIVE].

(** An active record with CPU 10 and memory 10, one with CPU 3 and memory
    3, and a record of status idle at 50 and 50. *)
Definition active_10 : CostRecord := record_of "web" 10%float "10%" "10%" ACTIVE.
Definition active_3 : CostRecord := record_of "batch" 10%float "3%" "3%" ACTIVE.
Definition idle_50 : CostRecord := record_of "cache" 10%float "50%" "50%" IDLE.

(** A record of status idle whose usage values are not numbers. *)
Definition idle_unparsed : CostRecord := record_of "queue" 10%float "n/a" "" IDLE.

(** Two idle records that cost 3 and 5 cents a day. *)
Definition cents : list CostRecord :=
  [record_of "log" 0.03%float "1" "1" IDLE;
   record_of "tmp" 0.05%float "1" "1" IDLE].

(** The response of a record of status idle, written out field by field:
    its monthly estimate and the idle flag alone. *)
Definition idle_response_of (record : CostRecord) : CostRecordResponse :=
  {| cost_record := record;
     usage_cpu_avg_float := 1%float;
     usage_mem_avg_float := 1%float;
     monthly_cost_estimate := (daily_cost record * 30)%float;
     is_underutilized := false;
     is_idle := true;
     is_high_cost_anomaly := false |}.

Definition cost_of (cost : float) : CostRecord :=
  record_of "db" cost "50" "50" ACTIVE.

Definition text_of (lines : list string) : str :=
  PyStr.join [PyStr.newline] (map lit lines).

(** Prose with no bullet item. *)
Definition prose : str :=
  text_of ["The weather was fine during the whole week.";
           "";
           "Nothing else was reported by the team."].

(** A findings section whose first bullet holds the word of a section. *)
Definition key_finding : str :=
  text_of ["Findings";
           "- Key finding: costs are high";
           "- three idle hosts"].

(** The summary of the empty cohort. *)
Definition empty_summary : AnalysisSummary :=
  {| total_records := 0;
     total_daily_cost := 0.0%float;
     total_monthly_cost_estimate := 0.0%float;
     underutilized_count := 0;
     idle_count := 0;
     high_cost_anomaly_count := 0;
     potential_monthly_savings := 0.0%float;
     underutilized_resources := [];
     idle_resources := [];
     high_cost_anomalies := [] |}.

End Samples.

(** ** [app/ai_service.py]: the service object and the prompt *)

Module Service.

Import Models.

(** Truth value of an optional string: [None] and the empty string are
    false. *)
Definition truthy (s : option str) : bool :=
  match s with
  | Some (_ :: _) => true
  | _ => false
  end.

(** [a or b]. *)
Definition py_or (a b : option str) : option str :=
  if truthy a then a else b.

(** The attributes [__init__] sets; the client is the provider taken as
    given below. *)
Record instance : Set := {
  use_mock : bool;
  api_key : option str
}.

(** The two exceptions [__init__] raises. *)
Inductive init_error : Set :=
| ValueError_api_key_required
| ImportError_openai_required.

(** [getenv] is the value of the variable OPENAI_API_KEY in the environment,
    [openai_installed] tells whether the package imports. *)
Definition __init__ (use_mock : bool) (api_key getenv : option str)
    (openai_installed : bool) : instance + init_error :=
  let api_key := py_or api_key getenv in
  if negb use_mock && negb (truthy api_key) then inr ValueError_api_key_required
  else if negb use_mock && negb openai_installed then inr ImportError_openai_required
  else inl {| use_mock := use_mock; api_key := api_key |}.

Section Provider.

(** [str(x)] of a float, as an f-string writes it with no format: a
    built-in, taken as given. *)
Variable float_str : float -> str.

(** The chat completion of the provider for a prompt: the text of its first
    choice, or the message of the exception the call raises (an answer with
    no text makes the parser raise, and counts as such an exception). *)
Variable chat : str -> str + str.

Definition line (s : str) : str := s ++ [PyStr.newline].

Definition underutilized_line (resource : CostRecordResponse) : str :=
  lit "- " ++ service (cost_record resource) ++ lit " (" ++
  instance_type (cost_record resource) ++ lit "): " ++
  lit "CPU " ++ float_str (usage_cpu_avg_float resource) ++ lit "%, " ++
  lit "Memory " ++ float_str (usage_mem_avg_float resource) ++ lit "%, " ++
  line (lit "Cost: $" ++ float_str (daily_cost (cost_record resource)) ++ lit "/day").

Definition idle_line (resource : CostRecordResponse) : str :=
  lit "- " ++ service (cost_record resource) ++ lit " (" ++
  instance_type (cost_record resource) ++ lit "): " ++
  lit "Status: " ++ status_value (status (cost_record resource)) ++ lit ", " ++
  line (lit "Cost: $" ++ float_str (daily_cost (cost_record resource)) ++ lit "/day").

Definition anomaly_line (resource : CostRecordResponse) : str :=
  lit "- " ++ service (cost_record resource) ++ lit " (" ++
  instance_type (cost_record resource) ++ lit "): " ++
  line (lit "Cost: $" ++ float_str (daily_cost (cost_record resource)) ++ lit "/day").

Definition _build_prompt (analysis_summary : AnalysisSummary) : str :=
  let prompt :=
    line [] ++
    line (lit "Analyze the following cloud cost data and generate a comprehensive cost savings report.") ++
    line [] ++
    line (lit "Summary:") ++
    line (lit "- Total Resources: " ++ PyStr.of_int (total_records analysis_summary)) ++
    line (lit "- Total Daily Cost: " ++
          AIService.money (total_daily_cost analysis_summary)) ++
    line (lit "- Total Monthly Cost Estimate: " ++
          AIService.money (total_monthly_cost_estimate analysis_summary)) ++
    line (lit "- Potential Monthly Savings: " ++
          AIService.money (potential_monthly_savings analysis_summary)) ++
    line [] ++
    line (lit "Findings:") ++
    line (lit "- Underutilized Resources: " ++
          PyStr.of_int (underutilized_count analysis_summary)) ++
    line (lit "- Idle Resources: " ++ PyStr.of_int (idle_count analysis_summary)) ++
    line (lit "- High-Cost Anomalies: " ++
          PyStr.of_int (high_cost_anomaly_count analysis_summary)) ++
    line [] ++
    line (lit "Underutilized Resources:") in
  let prompt :=
    fold_left (fun prompt resource => prompt ++ underutilized_line resource)
      (firstn 5 (underutilized_resources analysis_summary)) prompt in
  let prompt := prompt ++ line [] ++ line (lit "Idle Resources:") in
  let prompt :=
    fold_left (fun prompt resource => prompt ++ idle_line resource)
      (firstn 5 (idle_resources analysis_summary)) prompt in
  let prompt := prompt ++ line [] ++ line (lit "High-Cost Anomalies:") in
  let prompt :=
    fold_left (fun prompt resource => prompt ++ anomaly_line resource)
      (firstn 5 (high_cost_anomalies analysis_summary)) prompt in
  prompt ++
  line [] ++
  line (lit "Please provide:") ++
  line (lit "1. Executive summary (2-3 sentences)") ++
  line (lit "2. Key findings (bullet points)") ++
  line (lit "3. Actionable recommendations (prioritized)") ++
  line (lit "4. Priority actions (top 3-5 actions to take immediately)") ++
  line [] ++
  line (lit "Format your response in a structured way that can be parsed.").

(** The report, or the message of the exception the provider raised. *)
Definition _generate_openai_report (analysis_summary : AnalysisSummary)
    : CostSavingsReport + str :=
  let prompt := _build_prompt analysis_summary in
  match chat prompt with
  | inl ai_response =>
      inl (AIService._parse_ai_response ai_response analysis_summary)
  | inr message => inr message
  end.

Definition generate_cost_savings_report (self : instance)
    (analysis_summary : AnalysisSummary) : CostSavingsReport + str :=
  if use_mock self then inl (AIService._generate_mock_report analysis_summary)
  else _generate_openai_report analysis_summary.

End Provider.

End Service.

(** ** [app/main.py]: the endpoints over the stored records *)

Module Main.

Import Models.

(** What an endpoint raises: an [HTTPException] of its own, or an exception
    it does not catch. *)
Inductive raised : Set :=
| Analysis (e : exn)
| Construction (e : Service.init_error).

Inductive failure : Set :=
| HTTPException (status_code : Z) (detail : str)
| Uncaught (e : raised).

Inductive outcome (A : Type) : Type :=
| Returns (a : A)
| Fails (f : failure).

Arguments Returns {A} a.
Arguments Fails {A} f.

(** From [app/models.py]. *)
Record CSVUploadResponse : Set := {
  message : str;
  records_processed : Z;
  csv_analysis_summary : AnalysisSummary
}.

(** The global [ai_service], built when the module is loaded. *)
Definition ai_service (getenv : option str) (openai_installed : bool)
    : Service.instance + Service.init_error :=
  Service.__init__ (negb (Service.truthy getenv)) getenv getenv openai_installed.

(** [s.endswith(suffix)]. *)
Definition endswith (s suffix : str) : bool :=
  PyStr.startswith (rev s) (rev suffix).

Definition NO_DATA : str :=
  lit "No cost data available. Please upload a CSV file first.".

Definition analyze_costs (cost_records_store : list CostRecord)
    : outcome AnalysisSummary :=
  match cost_records_store with
  | [] => Fails (HTTPException 404 NO_DATA)
  | _ :: _ =>
      match CostAnalyzer.analyze_records cost_records_store with
      | Ok analysis_summary => Returns analysis_summary
      | Raise e => Fails (Uncaught (Analysis e))
      end
  end.

(** The flags and the response of one record against the whole store, as
    both record endpoints compute them. *)
Definition respond (cost_records_store : list CostRecord) (record : CostRecord)
    : result CostRecordResponse :=
  is_underutilized <- CostAnalyzer.is_underutilized record ;;
  is_idle <- CostAnalyzer.is_idle record ;;
  let avg_cost :=
    (PyFloat.sum (map daily_cost cost_records_store) /
     PyFloat.of_nat (List.length cost_records_store))%float in
  let is_anomaly := CostAnalyzer.is_high_cost_anomaly record avg_cost in
  from_cost_record record is_underutilized is_idle is_anomaly.

Fixpoint records_loop (cost_records_store records : list CostRecord)
    (all_responses : list CostRecordResponse) : result (list CostRecordResponse) :=
  match records with
  | [] => Ok all_responses
  | record :: rest =>
      response <- respond cost_records_store record ;;
      records_loop cost_records_store rest (all_responses ++ [response])
  end.

Definition get_all_records (cost_records_store : list CostRecord)
    : outcome (list CostRecordResponse) :=
  match cost_records_store with
  | [] => Returns []
  | _ :: _ =>
      match CostAnalyzer.analyze_records cost_records_store with
      | Raise e => Fails (Uncaught (Analysis e))
      | Ok _ =>
          match records_loop cost_records_store cost_records_store [] with
          | Ok all_responses => Returns all_responses
          | Raise e => Fails (Uncaught (Analysis e))
          end
      end
  end.

Definition get_record_by_service (cost_records_store : list CostRecord)
    (service_name : str) : outcome CostRecordResponse :=
  match cost_records_store with
  | [] => Fails (HTTPException 404 (lit "No cost data available"))
  | _ :: _ =>
      match find (fun r => PyStr.eqb (service r) service_name) cost_records_store with
      | None =>
          Fails (HTTPException 404
                   (lit "Service '" ++ service_name ++ lit "' not found"))
      | Some record =>
          match respond cost_records_store record with
          | Ok response => Returns response
          | Raise e => Fails (Uncaught (Analysis e))
          end
      end
  end.

Section Requests.

Variable float_str : float -> str.
Variable chat : str -> str + str.

(** [str(e)] of an exception the analysis raised, and of an
    [HTTPException] with a status and a detail: built-ins, taken as given. *)
Variable describe : exn -> str.
Variable describe_http : Z -> str -> str.

(** [global_service] is the global [ai_service] once built; [getenv] and
    [openai_installed] are read again when the request asks for the mock. *)
Definition generate_cost_savings_report (cost_records_store : list CostRecord)
    (global_service : Service.instance) (getenv : option str)
    (openai_installed : bool) (use_mock : bool) : outcome CostSavingsReport :=
  match cost_records_store with
  | [] => Fails (HTTPException 404 NO_DATA)
  | _ :: _ =>
      match CostAnalyzer.analyze_records cost_records_store with
      | Raise e => Fails (Uncaught (Analysis e))
      | Ok analysis_summary =>
          match
            (if use_mock then Service.__init__ true None getenv openai_installed
             else inl global_service)
          with
          | inr e => Fails (Uncaught (Construction e))
          | inl service =>
              match
                Service.generate_cost_savings_report float_str chat service
                  analysis_summary
              with
              | inl report => Returns report
              | inr message =>
                  Fails (HTTPException 500
                           (lit "Error generating AI report: " ++ message))
              end
          end
      end
  end.

(** [upload_csv]. [filename] is the name of the uploaded file; [rows] is
    what reading it gives: the message of the exception that decoding or
    reading the text raised, or one entry per row, the record built from it
    or [None] for a row that was skipped. The result comes with the store the
    request leaves. *)
Definition upload_csv (cost_records_store : list CostRecord) (filename : str)
    (rows : list (option CostRecord) + str)
    : outcome CSVUploadResponse * list CostRecord :=
  if negb (endswith filename (lit ".csv"))
  then (Fails (HTTPException 400 (lit "File must be a CSV file")), cost_records_store)
  else
    match rows with
    | inr message =>
        (Fails (HTTPException 500 (lit "Error processing CSV file: " ++ message)),
         cost_records_store)
    | inl rows =>
        let records :=
          fold_left
            (fun records row =>
               match row with
               | Some record => records ++ [record]
               | None => records
               end)
            rows [] in
        match records with
        | [] =>
            (Fails (HTTPException 500
                      (lit "Error processing CSV file: " ++
                       describe_http 400 (lit "No valid records found in CSV file"))),
             cost_records_store)
        | _ :: _ =>
            match CostAnalyzer.analyze_records records with
            | Ok analysis_summary =>
                (Returns
                   {| message :=
                        lit "Successfully processed " ++
                        PyStr.of_int (CostAnalyzer.len records) ++ lit " records";
                      records_processed := CostAnalyzer.len records;
                      csv_analysis_summary := analysis_summary |},
                 records)
            | Raise e =>
                (Fails (HTTPException 500
                          (lit "Error processing CSV file: " ++ describe e)),
                 records)
            end
        end
    end.

End Requests.

End Main.

(** ** Vocabulary of the further properties *)

Module Further.

Import Models.

(** A line reads as blank when nothing is left of it once stripped. *)
Definition blank (raw : str) : bool :=
  match PyStr.strip raw with
  | [] => true
  | _ :: _ => false
  end.

(** The parser accepts a narrative when it caught a summary and a finding. *)
Definition accepted (text : str) : Prop :=
  AIService.l_summary (AIService.parse_lines text) <> [] /\
  AIService.l_findings (AIService.parse_lines text) <> [].

(** A line of the narrative switches the parser to the section [s]. *)
Definition header (text : str) (s : AIService.section_name) : Prop :=
  exists raw,
    In raw (PyStr.split PyStr.newline text) /\
    AIService.section_token (PyStr.strip raw) = Some s.

(** The counts of a summary are the lengths of its collections, as in the
    summaries [analyze_records] builds. *)
Definition consistent (s : AnalysisSummary) : Prop :=
  underutilized_count s = CostAnalyzer.len (underutilized_resources s) /\
  idle_count s = CostAnalyzer.len (idle_resources s) /\
  high_cost_anomaly_count s = CostAnalyzer.len (high_cost_anomalies s).

(** The rows of an upload that gave a record, in their order. *)
Definition valid_rows (rows : list (option CostRecord)) : list CostRecord :=
  flat_map (fun row => match row with Some record => [record] | None => [] end) rows.

(** Two summaries agree on what the prompt shows: the figures, the counts
    and the first five entries of each collection. *)
Definition same_first_five (a b : AnalysisSummary) : Prop :=
  total_records a = total_records b /\
  total_daily_cost a = total_daily_cost b /\
  total_monthly_cost_estimate a = total_monthly_cost_estimate b /\
  potential_monthly_savings a = potential_monthly_savings b /\
  underutilized_count a = underutilized_count b /\
  idle_count a = idle_count b /\
  high_cost_anomaly_count a = high_cost_anomaly_count b /\
  firstn 5 (underutilized_resources a) = firstn 5 (underutilized_resources b) /\
  firstn 5 (idle_resources a) = firstn 5 (idle_resources b) /\
  firstn 5 (high_cost_anomalies a) = firstn 5 (high_cost_anomalies b).

(** *** Sample inputs *)

(** A narrative with a summary, two findings and a recommendation. *)
Definition narrative : str :=
  Samples.text_of
    ["Executive Summary"%string;
     "  Spending is dominated by two idle hosts.  "%string;
     ""%string;
     "Key Findings:"%string;
     "- two hosts are idle"%string;
     "* one database is oversized"%string;
     "Recommendations"%string;
     "- stop the idle hosts"%string].

Definition narrative_head : str :=
  Samples.text_of
    ["Executive Summary"%string; "Spending is dominated by two idle hosts."%string].

(** An upload of three rows, the second of which was skipped. *)
Definition upload_rows : list (option CostRecord) :=
  [Some Samples.active_10; None; Some Samples.idle_50].

(** A provider that answers [narrative] to every prompt, and the texts the
    built-ins give, for the samples. *)
Definition sample_chat (prompt : str) : str + str := inl narrative.
Definition sample_float_str (x : float) : str := PyFloat.format_money x.
Definition sample_describe (e : exn) : str := lit "could not convert string to float".
Definition sample_describe_http (status_code : Z) (detail : str) : str :=
  PyStr.of_int status_code ++ lit ": " ++ detail.

(** A summary with seven idle resources, and the same cut to five. *)
Definition idle_response : CostRecordResponse :=
  {| cost_record := Samples.idle_50;
     usage_cpu_avg_float := 50%float;
     usage_mem_avg_float := 50%float;
     monthly_cost_estimate := 300%float;
     is_underutilized := false;
     is_idle := true;
     is_high_cost_anomaly := false |}.

Definition summary_with_idle (n : nat) : AnalysisSummary :=
  {| total_records := 7;
     total_daily_cost := 70%float;
     total_monthly_cost_estimate := 2100%float;
     underutilized_count := 0;
     idle_count := 7;
     high_cost_anomaly_count := 0;
     potential_monthly_savings := 1680%float;
     underutilized_resources := [];
     idle_resources := repeat idle_response n;
     high_cost_anomalies := [] |}.

End Further.

(** * Properties *)

(** ** Signs of binary64 results *)

Section Binary64Sign.

Import Spec.












Lemma positive_finite_30 : positive_finite 30%float.
Proof. do 2 eexists; vm_compute; reflexivity. Qed.




End Binary64Sign.

(** ** The construction of a response *)

Section Classification.

Import Models Spec.

(** The float the validator returns is refused by the field, whatever the
    value the field was given. *)
Lemma validate_usage_raises v : validate_usage v = Raise ValueError.
Proof.
  unfold validate_usage, bind.
  now destruct (Models.parse_usage_percentage v) as [x|[]].
Qed.

Lemma from_cost_record_raises record u i a :
  from_cost_record record u i a = Raise ValueError.
Proof.
  unfold from_cost_record, bind.
  destruct (usage_float (usage_cpu_avg record)) as [cpu|[]]; trivial.
  destruct (usage_float (usage_mem_avg record)) as [mem|[]]; trivial.
  now rewrite validate_usage_raises.
Qed.

(** The first loop of [analyze_records] raises at its first record: in the
    classifier when a usage value is not a number, else in the construction
    of the response. *)
Lemma classify_loop_raises avg_cost record rest acc :
  CostAnalyzer.classify_loop avg_cost (record :: rest) acc = Raise ValueError.
Proof.
  simpl. unfold bind.
  destruct (CostAnalyzer.is_underutilized record) as [u|[]]; trivial.
  destruct (CostAnalyzer.is_idle record) as [i|[]]; trivial.
  now rewrite from_cost_record_raises.
Qed.

Lemma analyze_records_raises record rest :
  CostAnalyzer.analyze_records (record :: rest) = Raise ValueError.
Proof.
  unfold CostAnalyzer.analyze_records. now rewrite classify_loop_raises.
Qed.

Lemma analyze_records_returns records summary :
  CostAnalyzer.analyze_records records = Ok summary ->
  records = [] /\ summary = Samples.empty_summary.
Proof.
  destruct records as [|record rest].
  - intros [= <-]. now split.
  - rewrite analyze_records_raises. discriminate.
Qed.

Lemma respond_raises cost_records_store record :
  Main.respond cost_records_store record = Raise ValueError.
Proof.
  unfold Main.respond, bind.
  destruct (CostAnalyzer.is_underutilized record) as [u|[]]; trivial.
  destruct (CostAnalyzer.is_idle record) as [i|[]]; trivial.
  now rewrite from_cost_record_raises.
Qed.

End Classification.

(** ** The three loops that add up the savings *)

Section Savings.

Import Models Spec.

Lemma fold_add_underutilized responses :
  forall acc,
    fold_left CostAnalyzer.add_underutilized (filter is_underutilized responses) acc =
    fold_left (fun acc r => (acc + credit r)%float)
      (filter underutilized_only responses) acc.
Proof.
  induction responses as [|r l IH]; intros acc; simpl; trivial.
  unfold underutilized_only at 1.
  destruct (is_underutilized r) eqn:Hu; simpl; trivial.
  destruct (is_idle r) eqn:Hi; simpl.
  - rewrite <- IH. f_equal.
    unfold CostAnalyzer.add_underutilized. now rewrite Hi.
  - rewrite <- IH. f_equal.
    unfold CostAnalyzer.add_underutilized, credit. now rewrite Hi, Hu.
Qed.

Lemma fold_add_idle responses :
  forall acc,
    fold_left CostAnalyzer.add_idle (filter is_idle responses) acc =
    fold_left (fun acc r => (acc + credit r)%float) (filter is_idle responses) acc.
Proof.
  induction responses as [|r l IH]; intros acc; simpl; trivial.
  destruct (is_idle r) eqn:Hi; simpl; trivial.
  rewrite <- IH. f_equal.
  unfold CostAnalyzer.add_idle, credit. now rewrite Hi.
Qed.

Lemma fold_add_anomaly responses :
  forall acc,
    fold_left CostAnalyzer.add_anomaly (filter is_high_cost_anomaly responses) acc =
    fold_left (fun acc r => (acc + credit r)%float)
      (filter anomaly_only responses) acc.
Proof.
  induction responses as [|r l IH]; intros acc; simpl; trivial.
  unfold anomaly_only at 1.
  destruct (is_high_cost_anomaly r) eqn:Ha; simpl; trivial.
  destruct (is_idle r) eqn:Hi, (is_underutilized r) eqn:Hu; simpl;
    rewrite <- IH; f_equal;
    unfold CostAnalyzer.add_anomaly, credit; now rewrite Hi, Hu, ?Ha.
Qed.

(** Records of no category add the float 0 to a sum that is still 0. *)
Lemma fold_no_category responses :
  fold_left (fun acc r => (acc + credit r)%float) (filter no_category responses)
    0%float = 0%float.
Proof.
  induction responses as [|r l IH]; simpl; trivial.
  destruct (no_category r) eqn:Hn; simpl; trivial.
  unfold no_category in Hn. unfold credit.
  destruct (is_idle r), (is_underutilized r), (is_high_cost_anomaly r);
    try discriminate Hn.
  exact IH.
Qed.

Lemma potential_savings_sum_credits responses :
  CostAnalyzer.potential_savings_of (filter is_underutilized responses)
    (filter is_idle responses) (filter is_high_cost_anomaly responses) =
  sum_credits (credit_order responses).
Proof.
  unfold CostAnalyzer.potential_savings_of, sum_credits, credit_order.
  rewrite !fold_left_app, fold_no_category.
  now rewrite fold_add_underutilized, fold_add_idle, fold_add_anomaly.
Qed.

(** Every response is in exactly one of the four runs of [credit_order]. *)
Lemma credit_order_permutation responses :
  Permutation (credit_order responses) responses.
Proof.
  unfold credit_order.
  induction responses as [|r l IH]; simpl; [constructor|].
  unfold no_category at 1, underutilized_only at 1, anomaly_only at 1.
  set (f1 := filter no_category l) in *.
  set (f2 := filter underutilized_only l) in *.
  set (f3 := filter is_idle l) in *.
  set (f4 := filter anomaly_only l) in *.
  assert (Permutation (f1 ++ r :: f2 ++ f3 ++ f4) (r :: l)) as P2.
  { rewrite <- IH. symmetry. apply Permutation_middle. }
  assert (Permutation (f1 ++ f2 ++ r :: f3 ++ f4) (r :: l)) as P3.
  { rewrite <- P2. apply Permutation_app_head. symmetry. apply Permutation_middle. }
  assert (Permutation (f1 ++ f2 ++ f3 ++ r :: f4) (r :: l)) as P4.
  { rewrite <- P3. do 2 apply Permutation_app_head.
    symmetry. apply Permutation_middle. }
  destruct (is_idle r), (is_underutilized r), (is_high_cost_anomaly r); simpl;
    auto using perm_skip.
Qed.



End Savings.

(** ** The summary of a cohort *)

Section Summary.

Import Models Spec.

(** C6. [analyze_records] on the empty cohort returns, without raising, the
    summary whose record count, daily cost, monthly estimate, three counts
    and savings are all zero and whose three collections are empty. *)
Theorem C6_empty_cohort :
  CostAnalyzer.analyze_records [] =
  Ok {| total_records := 0;
        total_daily_cost := 0%float;
        total_monthly_cost_estimate := 0%float;
        underutilized_count := 0;
        idle_count := 0;
        high_cost_anomaly_count := 0;
        potential_monthly_savings := 0%float;
        underutilized_resources := [];
        idle_resources := [];
        high_cost_anomalies := [] |}.
Proof. reflexivity. Qed.

(** C1, where the code departs from it. For the cohort of the scenario of
    the specification the claim gives savings of 1320, one credit for each
    of the three records. [analyze_records] returns no summary for it: it
    raises in its first loop, at the first record, because
    [from_cost_record] raises for every record and all flags (the
    construction hands the usage fields, declared [str], the floats of the
    validator). The three loops that add the savings up are not reached.
    Run on the buckets of any list of responses, they do add one credit per
    response, chosen by the priority idle, else underutilized, else
    anomaly, else nothing: what the claim asks for. *)
Theorem C1_analysis_raises_before_the_savings :
  CostAnalyzer.analyze_records Samples.scenario = Raise ValueError /\
  (forall record is_underutilized is_idle is_high_cost_anomaly,
      from_cost_record record is_underutilized is_idle is_high_cost_anomaly =
      Raise ValueError) /\
  (forall responses,
      CostAnalyzer.potential_savings_of (filter is_underutilized responses)
        (filter is_idle responses) (filter is_high_cost_anomaly responses) =
      sum_credits (credit_order responses) /\
      Permutation (credit_order responses) responses) /\
  (forall r,
      (is_idle r = true ->
       credit r = (monthly_cost_estimate r * 0.8)%float) /\
      (is_idle r = false -> is_underutilized r = true ->
       credit r = (monthly_cost_estimate r * 0.3)%float) /\
      (is_idle r = false -> is_underutilized r = false ->
       is_high_cost_anomaly r = true ->
       credit r = (monthly_cost_estimate r * 0.2)%float) /\
      (is_idle r = false -> is_underutilized r = false ->
       is_high_cost_anomaly r = false -> credit r = 0%float)).
Proof.
  split; [apply analyze_records_raises|].
  split; [apply from_cost_record_raises|].
  split.
  - intros responses.
    split; [apply potential_savings_sum_credits|apply credit_order_permutation].
  - intros r; unfold credit; repeat split; intros;
      repeat match goal with E : _ = _ |- _ => rewrite E; clear E end; reflexivity.
Qed.


End Summary.

(** ** The savings against 80% of the monthly spend *)

Section Bound.

Import Models Spec.


(** The three loops on their own do not keep that bound in binary64. On
    the idle bucket of two responses with the monthly estimates of daily
    costs 0.03 and 0.05 they add up 1.9200000000000002, while 0.8 times the
    monthly estimate of the two costs is 1.92. *)
Lemma savings_loops_round_above_80_percent :
  let idle := map Samples.idle_response_of Samples.cents in
  CostAnalyzer.potential_savings_of [] idle [] = 1.9200000000000002%float /\
  (0.8 * (PyFloat.sum (map daily_cost Samples.cents) * 30))%float = 1.92%float /\
  (CostAnalyzer.potential_savings_of [] idle [] <=?
   0.8 * (PyFloat.sum (map daily_cost Samples.cents) * 30))%float = false.
Proof. repeat split. Qed.

End Bound.

(** ** The classifier *)

Section Classifier.

Import Models Spec.

Lemma status_eqb_eq a b : CostAnalyzer.status_eqb a b = true <-> a = b.
Proof. destruct a, b; vm_compute; split; congruence. Qed.

Lemma SFmul_comm x y : SFmul prec emax x y = SFmul prec emax y x.
Proof.
  destruct x as [sx|sx| |sx mx ex], y as [sy|sy| |sy my ey]; simpl;
    rewrite ?(xorb_comm sx sy); trivial.
  now rewrite Pos.mul_comm, Z.add_comm.
Qed.

Lemma mul_comm (x y : float) : (x * y = y * x)%float.
Proof. apply Prim2SF_inj. rewrite !mul_spec. apply SFmul_comm. Qed.

(** C7. [is_underutilized] is true exactly of the active records whose CPU
    and memory values are both below 20; [is_idle] is true exactly of the
    records of status idle and of those whose CPU and memory values are
    both below 5. An active record at 10 and 10 is underutilized and not
    idle, an active record at 3 and 3 is both, and a record of status idle
    is idle whatever its usage values hold. *)
Theorem C7_underutilized_and_idle :
  (forall record,
      CostAnalyzer.is_underutilized record = Ok true <->
      status record = ACTIVE /\
      exists cpu mem,
        CostAnalyzer.parse_usage_percentage (usage_cpu_avg record) = Ok cpu /\
        CostAnalyzer.parse_usage_percentage (usage_mem_avg record) = Ok mem /\
        (cpu <? 20.0)%float = true /\ (mem <? 20.0)%float = true) /\
  (forall record,
      CostAnalyzer.is_idle record = Ok true <->
      status record = IDLE \/
      exists cpu mem,
        CostAnalyzer.parse_usage_percentage (usage_cpu_avg record) = Ok cpu /\
        CostAnalyzer.parse_usage_percentage (usage_mem_avg record) = Ok mem /\
        (cpu <? 5.0)%float = true /\ (mem <? 5.0)%float = true) /\
  (CostAnalyzer.is_underutilized Samples.active_10 = Ok true /\
   CostAnalyzer.is_idle Samples.active_10 = Ok false) /\
  (CostAnalyzer.is_underutilized Samples.active_3 = Ok true /\
   CostAnalyzer.is_idle Samples.active_3 = Ok true) /\
  (forall record, status record = IDLE -> CostAnalyzer.is_idle record = Ok true) /\
  CostAnalyzer.is_idle Samples.idle_50 = Ok true /\
  CostAnalyzer.is_idle Samples.idle_unparsed = Ok true.
Proof.
  split; [|split; [|repeat split; try (vm_compute; reflexivity)]].
  - intros record. unfold CostAnalyzer.is_underutilized, bind.
    change CostAnalyzer.UNDERUTILIZED_CPU_THRESHOLD with 20.0%float.
    change CostAnalyzer.UNDERUTILIZED_MEM_THRESHOLD with 20.0%float.
    destruct (CostAnalyzer.parse_usage_percentage (usage_cpu_avg record)) as [cpu|].
    + destruct (CostAnalyzer.parse_usage_percentage (usage_mem_avg record)) as [mem|].
      * split.
        -- intros [= H]. apply andb_prop in H as [H Hm]. apply andb_prop in H as [Hs Hc].
           apply status_eqb_eq in Hs. split; trivial. now exists cpu, mem.
        -- intros (Hs & c & m & [= <-] & [= <-] & Hc & Hm).
           apply status_eqb_eq in Hs. now rewrite Hs, Hc, Hm.
      * split; [discriminate|]. now intros (_ & c & m & _ & H & _).
    + split; [discriminate|]. now intros (_ & c & m & H & _).
  - intros record. unfold CostAnalyzer.is_idle, bind.
    change CostAnalyzer.IDLE_CPU_THRESHOLD with 5.0%float.
    change CostAnalyzer.IDLE_MEM_THRESHOLD with 5.0%float.
    destruct (CostAnalyzer.status_eqb (status record) IDLE) eqn:Hs.
    + apply status_eqb_eq in Hs. split; auto.
    + assert (status record <> IDLE) as Hn.
      { intros E. apply status_eqb_eq in E. congruence. }
      destruct (CostAnalyzer.parse_usage_percentage (usage_cpu_avg record)) as [cpu|].
      * destruct (CostAnalyzer.parse_usage_percentage (usage_mem_avg record)) as [mem|].
        -- split.
           ++ intros [= H]. apply andb_prop in H as [Hc Hm]. right. now exists cpu, mem.
           ++ intros [E|(c & m & [= <-] & [= <-] & Hc & Hm)]; [contradiction|].
              now rewrite Hc, Hm.
        -- split; [discriminate|].
           intros [E|(c & m & _ & H & _)]; [contradiction|discriminate].
      * split; [discriminate|].
        intros [E|(c & m & H & _)]; [contradiction|discriminate].
  - intros record Hs. unfold CostAnalyzer.is_idle.
    apply status_eqb_eq in Hs. now rewrite Hs.
Qed.

(** C8. [is_high_cost_anomaly] is true exactly when the daily cost is
    strictly greater than 2.0 times the average; with the average 10.0 a
    record that costs 25.0 a day is an anomaly, and one that costs 19.0 or
    exactly 20.0 is not. *)
Theorem C8_high_cost_anomaly :
  (forall record avg_cost,
      CostAnalyzer.is_high_cost_anomaly record avg_cost = true <->
      (2.0 * avg_cost <? daily_cost record)%float = true) /\
  CostAnalyzer.is_high_cost_anomaly (Samples.cost_of 25.0) 10.0 = true /\
  CostAnalyzer.is_high_cost_anomaly (Samples.cost_of 19.0) 10.0 = false /\
  CostAnalyzer.is_high_cost_anomaly (Samples.cost_of 20.0) 10.0 = false.
Proof.
  split; [|repeat split].
  intros record avg_cost. unfold CostAnalyzer.is_high_cost_anomaly.
  change CostAnalyzer.HIGH_COST_MULTIPLIER with 2.0%float.
  now rewrite (mul_comm avg_cost 2.0).
Qed.

Lemma remove_char_app old a b :
  PyStr.remove_char old (a ++ b) = PyStr.remove_char old a ++ PyStr.remove_char old b.
Proof. apply filter_app. Qed.

(** C5, as the code has it. [parse_usage_percentage] gives 42.0 for "42%",
    "42" and 42.0; a number is returned as it is and a string is read
    after every "%" in it is removed, wherever it stands, with no clamping
    of the value; it raises exactly when what is left is not a number, as
    for "abc", so that "12%34" is read as 1234.0. *)
Theorem C5_parse_usage_percentage :
  CostAnalyzer.parse_usage_percentage (UStr (lit "42%")) = Ok 42.0%float /\
  CostAnalyzer.parse_usage_percentage (UStr (lit "42")) = Ok 42.0%float /\
  CostAnalyzer.parse_usage_percentage (UNum 42.0) = Ok 42.0%float /\
  (forall x, CostAnalyzer.parse_usage_percentage (UNum x) = Ok x) /\
  (forall s,
      CostAnalyzer.parse_usage_percentage (UStr s) = Raise ValueError <->
      PyFloat.of_str (PyStr.remove_char (PyStr.chr "%") s) = None) /\
  (forall s x,
      CostAnalyzer.parse_usage_percentage (UStr s) = Ok x <->
      PyFloat.of_str (PyStr.remove_char (PyStr.chr "%") s) = Some x) /\
  (forall a b,
      CostAnalyzer.parse_usage_percentage (UStr (a ++ PyStr.chr "%" :: b)) =
      CostAnalyzer.parse_usage_percentage (UStr (a ++ b))) /\
  CostAnalyzer.parse_usage_percentage (UStr (lit "abc")) = Raise ValueError /\
  CostAnalyzer.parse_usage_percentage (UStr (lit "12%34")) = Ok 1234.0%float /\
  CostAnalyzer.parse_usage_percentage (UStr (lit "150%")) = Ok 150.0%float /\
  CostAnalyzer.parse_usage_percentage (UStr (lit "-5%")) = Ok (-5.0)%float.
Proof.
  repeat split; try (vm_compute; reflexivity); unfold CostAnalyzer.parse_usage_percentage.
  - destruct (PyFloat.of_str _); congruence.
  - destruct (PyFloat.of_str _); congruence.
  - destruct (PyFloat.of_str _); congruence.
  - destruct (PyFloat.of_str _); congruence.
  - intros a b. now rewrite !remove_char_app.
Qed.

(** The string "12%34" does not make [parse_usage_percentage] fail: the
    "%" in its middle is removed and 1234.0 is returned. *)
Lemma C5_counterexample :
  CostAnalyzer.parse_usage_percentage (UStr (lit "12%34")) = Ok 1234.0%float /\
  CostAnalyzer.parse_usage_percentage (UStr (lit "12%34")) <> Raise ValueError.
Proof. split; [vm_compute; reflexivity|vm_compute; discriminate]. Qed.

End Classifier.

(** ** The two report paths *)

Section Reports.

Import Models Spec AIService.

Lemma has_token_section_token line :
  has_token line = true <-> exists s, section_token line = Some s.
Proof.
  unfold has_token, section_token, TOKENS, existsb.
  destruct (PyStr.contains (lit "summary") _), (PyStr.contains (lit "executive") _),
    (PyStr.contains (lit "finding") _), (PyStr.contains (lit "recommendation") _),
    (PyStr.contains (lit "priority") _), (PyStr.contains (lit "action") _);
    simpl; split; intros H; try reflexivity; try discriminate;
    try (eexists; reflexivity); now destruct H.
Qed.

Lemma has_token_false line :
  has_token line = false <-> section_token line = None.
Proof.
  split.
  - intros Hf. destruct (section_token line) as [s|] eqn:E; trivial.
    assert (has_token line = true) as Ht.
    { apply has_token_section_token. rewrite E. now exists s. }
    congruence.
  - intros Hn. destruct (has_token line) eqn:E; trivial.
    apply has_token_section_token in E. destruct E as [s E]. congruence.
Qed.

(** One turn of the loop adds at most one item, the text of a bullet line
    that holds no section word. *)
Lemma parse_line_items st raw item :
  In item (items (parse_line st raw)) ->
  In item (items st) \/
  (has_token (PyStr.strip raw) = false /\
   is_bullet (PyStr.strip raw) = true /\
   item = bullet_item (PyStr.strip raw)).
Proof.
  unfold parse_line.
  destruct (PyStr.strip raw) as [|c line] eqn:E; [now left|].
  destruct (section_token (c :: line)) as [s|] eqn:Ht; [now left|].
  apply has_token_false in Ht.
  destruct (is_bullet (c :: line)) eqn:Hb.
  - unfold append_item, items.
    destruct (current_section st) as [[]|]; simpl; rewrite ?in_app_iff; simpl;
      rewrite ?in_app_iff; intuition (subst; auto).
  - destruct (current_section st) as [[]|], (l_summary st); now left.
Qed.

Lemma parse_lines_items lines :
  forall st item,
    In item (items (fold_left parse_line lines st)) ->
    In item (items st) \/
    exists raw,
      In raw lines /\ has_token (PyStr.strip raw) = false /\
      is_bullet (PyStr.strip raw) = true /\ item = bullet_item (PyStr.strip raw).
Proof.
  induction lines as [|raw rest IH]; intros st item; simpl; [now left|].
  intros H. apply IH in H. destruct H as [H|(raw' & Hin & H)].
  - apply parse_line_items in H. destruct H as [H|H]; [now left|].
    right. exists raw. auto.
  - right. exists raw'. auto.
Qed.

(** C2. When the parser has caught no summary line or no finding, and so
    for a narrative none of whose lines is a bullet item,
    [_parse_ai_response] returns the report [_generate_mock_report] builds
    from the same summary. *)
Theorem C2_parse_fallback :
  (forall text analysis_summary,
      l_summary (parse_lines text) = [] \/ l_findings (parse_lines text) = [] ->
      _parse_ai_response text analysis_summary =
      _generate_mock_report analysis_summary) /\
  (forall text analysis_summary,
      (forall raw, In raw (PyStr.split PyStr.newline text) ->
                   is_bullet (PyStr.strip raw) = false) ->
      _parse_ai_response text analysis_summary =
      _generate_mock_report analysis_summary) /\
  (forall analysis_summary,
      _parse_ai_response Samples.prose analysis_summary =
      _generate_mock_report analysis_summary).
Proof.
  assert (forall text analysis_summary,
      l_summary (parse_lines text) = [] \/ l_findings (parse_lines text) = [] ->
      _parse_ai_response text analysis_summary =
      _generate_mock_report analysis_summary) as H1.
  { intros text analysis_summary H. unfold _parse_ai_response.
    destruct H as [-> | ->]; simpl; trivial. now rewrite orb_true_r. }
  split; [exact H1|]. split.
  - intros text analysis_summary Hb. apply H1. right.
    destruct (l_findings (parse_lines text)) as [|item l] eqn:E; trivial.
    destruct (parse_lines_items (PyStr.split PyStr.newline text) initial item)
      as [H|(raw & Hin & _ & His & _)].
    + unfold items. fold (parse_lines text). rewrite E. now left.
    + destruct H.
    + rewrite (Hb raw Hin) in His. discriminate.
  - intros analysis_summary. apply H1. right. vm_compute. reflexivity.
Qed.

(** The report of the deterministic path for the summary of the empty
    cohort, whose three counts are zero, has no priority action (and no
    finding): no placeholder is put in. *)
Lemma C3_counterexample :
  CostAnalyzer.analyze_records [] = Ok Samples.empty_summary /\
  idle_count Samples.empty_summary = 0%Z /\
  underutilized_count Samples.empty_summary = 0%Z /\
  high_cost_anomaly_count Samples.empty_summary = 0%Z /\
  priority_actions (_generate_mock_report Samples.empty_summary) = [] /\
  findings (_generate_mock_report Samples.empty_summary) = [] /\
  ~ priority_actions (_generate_mock_report Samples.empty_summary) <> [].
Proof. repeat split. intros H. now apply H. Qed.

(** C3, as the code has it. The recommendations of the deterministic report
    always end with the two standing ones, so they are never empty; for a
    summary whose three collections are empty they are these two alone and
    the priority actions are empty, and for a summary whose three counts
    are zero the findings are empty. *)
Theorem C3_deterministic_report analysis_summary :
  (exists specific,
      recommendations (_generate_mock_report analysis_summary) =
      specific ++ [STANDING_SCHEDULING; STANDING_ALERTS]) /\
  recommendations (_generate_mock_report analysis_summary) <> [] /\
  (idle_resources analysis_summary = [] ->
   underutilized_resources analysis_summary = [] ->
   high_cost_anomalies analysis_summary = [] ->
   recommendations (_generate_mock_report analysis_summary) =
     [STANDING_SCHEDULING; STANDING_ALERTS] /\
   priority_actions (_generate_mock_report analysis_summary) = []) /\
  (idle_count analysis_summary = 0%Z ->
   underutilized_count analysis_summary = 0%Z ->
   high_cost_anomaly_count analysis_summary = 0%Z ->
   findings (_generate_mock_report analysis_summary) = []).
Proof.
  assert (exists specific,
      recommendations (_generate_mock_report analysis_summary) =
      specific ++ [STANDING_SCHEDULING; STANDING_ALERTS]) as Hs.
  { unfold _generate_mock_report; cbn [recommendations].
    rewrite <- app_assoc. eexists. reflexivity. }
  split; [exact Hs|]. split; [|split].
  - destruct Hs as [specific ->]. now destruct specific.
  - intros Hi Hu Ha. unfold _generate_mock_report; cbn [recommendations priority_actions].
    now rewrite Hi, Hu, Ha.
  - intros Hi Hu Ha. unfold _generate_mock_report; cbn [findings].
    now rewrite Hi, Hu, Ha.
Qed.

(** C10. A line that holds a section word only switches the section,
    bullet or not: the summary and the three lists stay as they are. So
    every item of the lists comes from a bullet line with no section word,
    and the bullet "- Key finding: costs are high" is dropped. *)
Theorem C10_section_words_before_bullets :
  (forall st raw,
      has_token (PyStr.strip raw) = true ->
      exists s,
        parse_line st raw = set_section st s /\
        l_summary (parse_line st raw) = l_summary st /\
        l_findings (parse_line st raw) = l_findings st /\
        l_recommendations (parse_line st raw) = l_recommendations st /\
        l_priority_actions (parse_line st raw) = l_priority_actions st) /\
  (forall text item,
      In item (l_findings (parse_lines text)) \/
      In item (l_recommendations (parse_lines text)) \/
      In item (l_priority_actions (parse_lines text)) ->
      exists raw,
        In raw (PyStr.split PyStr.newline text) /\
        has_token (PyStr.strip raw) = false /\
        is_bullet (PyStr.strip raw) = true /\
        item = bullet_item (PyStr.strip raw)) /\
  (is_bullet (lit "- Key finding: costs are high") = true /\
   has_token (lit "- Key finding: costs are high") = true /\
   l_findings (parse_lines Samples.key_finding) = [lit "three idle hosts"] /\
   l_recommendations (parse_lines Samples.key_finding) = [] /\
   l_priority_actions (parse_lines Samples.key_finding) = []).
Proof.
  split; [|split].
  - intros st raw H. apply has_token_section_token in H as [s Hs].
    exists s. unfold parse_line.
    destruct (PyStr.strip raw) as [|c line]; [discriminate Hs|].
    rewrite Hs. repeat split.
  - intros text item H.
    destruct (parse_lines_items (PyStr.split PyStr.newline text) initial item)
      as [[]|Hraw]; trivial.
    unfold items. fold (parse_lines text). rewrite !in_app_iff. exact H.
  - repeat split; vm_compute; reflexivity.
Qed.

End Reports.

(** ** The theorems at sample inputs *)

Section Witnesses.

Import Models Spec AIService.



Lemma C2_witness :
  _parse_ai_response Samples.prose Samples.empty_summary =
  _generate_mock_report Samples.empty_summary.
Proof.
  apply (proj1 (proj2 C2_parse_fallback)).
  intros raw H. vm_compute in H.
  repeat (destruct H as [<-|H]; [vm_compute; reflexivity|]). destruct H.
Defined.

Lemma C3_witness :
  recommendations (_generate_mock_report Samples.empty_summary) =
    [STANDING_SCHEDULING; STANDING_ALERTS] /\
  priority_actions (_generate_mock_report Samples.empty_summary) = [] /\
  findings (_generate_mock_report Samples.empty_summary) = [].
Proof.
  destruct (C3_deterministic_report Samples.empty_summary) as (_ & _ & H1 & H2).
  destruct (H1 eq_refl eq_refl eq_refl) as [Hr Hp].
  split; [exact Hr|]. split; [exact Hp|]. exact (H2 eq_refl eq_refl eq_refl).
Defined.

Lemma C7_witness :
  CostAnalyzer.is_underutilized Samples.active_10 = Ok true /\
  CostAnalyzer.is_idle Samples.idle_unparsed = Ok true.
Proof.
  destruct C7_underutilized_and_idle as (Hu & _ & _ & _ & Hi & _).
  split.
  - apply Hu. split; [reflexivity|].
    exists 10%float, 10%float. repeat split.
  - apply Hi. reflexivity.
Defined.

Lemma C10_witness :
  exists s,
    parse_line (set_section initial FINDINGS) (lit "- Key finding: costs are high") =
    set_section (set_section initial FINDINGS) s /\
    l_findings
      (parse_line (set_section initial FINDINGS) (lit "- Key finding: costs are high")) = [].
Proof.
  destruct (proj1 C10_section_words_before_bullets (set_section initial FINDINGS)
              (lit "- Key finding: costs are high"))
    as (s & H1 & _ & H2 & _).
  - vm_compute; reflexivity.
  - exists s. split; [exact H1|exact H2].
Defined.

End Witnesses.

(** ** Further properties of the narrative parser *)

Section Parser.

Import Models Spec Further AIService.

Lemma dropwhile_idem p s :
  PyStr.dropwhile p (PyStr.dropwhile p s) = PyStr.dropwhile p s.
Proof.
  induction s as [|c s IH]; simpl; trivial.
  destruct (p c) eqn:E; trivial. simpl. now rewrite E.
Qed.

Lemma dropwhile_snoc p s c :
  p c = false -> PyStr.dropwhile p (s ++ [c]) = PyStr.dropwhile p s ++ [c].
Proof.
  intros Hc. induction s as [|d s IH]; simpl.
  - now rewrite Hc.
  - destruct (p d); trivial.
Qed.

Lemma dropwhile_head p s :
  PyStr.dropwhile p s = [] \/
  exists c rest, PyStr.dropwhile p s = c :: rest /\ p c = false.
Proof.
  induction s as [|c s IH]; simpl; [now left|].
  destruct (p c) eqn:E; trivial. right. now exists c, s.
Qed.

(** A stripped string starts with no character of the kind stripped. *)
Lemma strip_with_head p s :
  PyStr.dropwhile p (PyStr.strip_with p s) = PyStr.strip_with p s.
Proof.
  unfold PyStr.strip_with.
  destruct (dropwhile_head p s) as [->|(c & rest & -> & Hc)]; trivial.
  change (rev (c :: rest)) with (rev rest ++ [c]).
  rewrite dropwhile_snoc by trivial.
  rewrite rev_app_distr. simpl. now rewrite Hc.
Qed.

Lemma strip_with_idem p s :
  PyStr.strip_with p (PyStr.strip_with p s) = PyStr.strip_with p s.
Proof.
  unfold PyStr.strip_with at 1. rewrite strip_with_head.
  unfold PyStr.strip_with. rewrite rev_involutive. now rewrite dropwhile_idem.
Qed.

Lemma strip_idem s : PyStr.strip (PyStr.strip s) = PyStr.strip s.
Proof. apply strip_with_idem. Qed.

Lemma split_nonempty sep s : PyStr.split sep s <> [].
Proof.
  destruct s as [|c s]; simpl; [discriminate|].
  destruct (c =? sep)%N; [discriminate|].
  destruct (PyStr.split sep s); discriminate.
Qed.

Lemma split_app sep a b :
  PyStr.split sep (a ++ sep :: b) = PyStr.split sep a ++ PyStr.split sep b.
Proof.
  induction a as [|c a IH]; simpl.
  - now rewrite N.eqb_refl.
  - rewrite IH. destruct (c =? sep)%N; trivial.
    pose proof (split_nonempty sep a) as Hn.
    destruct (PyStr.split sep a) as [|l ls]; [congruence|reflexivity].
Qed.

(** Parsing is incremental: the parse of a narrative followed by a new
    line and more text is the parse of the first part carried on over the
    lines of the rest. *)
Lemma parse_lines_app a b :
  parse_lines (a ++ PyStr.newline :: b) =
  fold_left parse_line (PyStr.split PyStr.newline b) (parse_lines a).
Proof. unfold parse_lines. now rewrite split_app, fold_left_app. Qed.

Lemma parse_line_keeps st raw :
  (l_summary st <> [] -> l_summary (parse_line st raw) = l_summary st) /\
  (exists more, l_findings (parse_line st raw) = l_findings st ++ more) /\
  (exists more, l_recommendations (parse_line st raw) = l_recommendations st ++ more) /\
  (exists more, l_priority_actions (parse_line st raw) = l_priority_actions st ++ more).
Proof.
  unfold parse_line.
  assert (forall l : list str, exists more, l = l ++ more) as Hnil
    by (intros l; exists []; now rewrite app_nil_r).
  destruct (PyStr.strip raw) as [|c line]; [now auto|].
  destruct (section_token (c :: line)); [simpl; now auto|].
  destruct (is_bullet (c :: line)).
  - unfold append_item. destruct (current_section st) as [[]|]; simpl;
      repeat split; trivial; eexists; reflexivity.
  - destruct (current_section st) as [[]|]; try (now auto).
    destruct (l_summary st) eqn:E; simpl; repeat split; auto; congruence.
Qed.

Lemma fold_parse_line_keeps lines :
  forall st,
    (l_summary st <> [] ->
     l_summary (fold_left parse_line lines st) = l_summary st) /\
    (exists more, l_findings (fold_left parse_line lines st) = l_findings st ++ more) /\
    (exists more,
        l_recommendations (fold_left parse_line lines st) =
        l_recommendations st ++ more) /\
    (exists more,
        l_priority_actions (fold_left parse_line lines st) =
        l_priority_actions st ++ more).
Proof.
  induction lines as [|raw rest IH]; intros st; simpl.
  - repeat split; trivial; exists []; now rewrite app_nil_r.
  - destruct (parse_line_keeps st raw) as (Hs & (f & Hf) & (r & Hr) & (p & Hp)).
    destruct (IH (parse_line st raw)) as (Hs' & (f' & Hf') & (r' & Hr') & (p' & Hp')).
    repeat split.
    + intros Hne. rewrite Hs' by (rewrite Hs; trivial). now apply Hs.
    + exists (f ++ f'). now rewrite Hf', Hf, app_assoc.
    + exists (r ++ r'). now rewrite Hr', Hr, app_assoc.
    + exists (p ++ p'). now rewrite Hp', Hp, app_assoc.
Qed.

(** X1. More text after a new line never takes back what the parser caught:
    a summary once caught stays the summary, and each of the three lists is
    only extended at its end. *)
Theorem X1_longer_narrative_only_adds a b :
  (l_summary (parse_lines a) <> [] ->
   l_summary (parse_lines (a ++ PyStr.newline :: b)) = l_summary (parse_lines a)) /\
  (exists more,
      l_findings (parse_lines (a ++ PyStr.newline :: b)) =
      l_findings (parse_lines a) ++ more) /\
  (exists more,
      l_recommendations (parse_lines (a ++ PyStr.newline :: b)) =
      l_recommendations (parse_lines a) ++ more) /\
  (exists more,
      l_priority_actions (parse_lines (a ++ PyStr.newline :: b)) =
      l_priority_actions (parse_lines a) ++ more).
Proof. rewrite parse_lines_app. apply fold_parse_line_keeps. Qed.

Lemma parse_line_strip st raw : parse_line st (PyStr.strip raw) = parse_line st raw.
Proof. unfold parse_line. now rewrite strip_idem. Qed.

Lemma fold_parse_line_stripped lines st :
  fold_left parse_line lines st =
  fold_left parse_line
    (map PyStr.strip (filter (fun raw => negb (blank raw)) lines)) st.
Proof.
  revert st. induction lines as [|raw rest IH]; intros st; simpl; trivial.
  unfold blank at 1. destruct (PyStr.strip raw) as [|c line] eqn:E; simpl.
  - rewrite <- IH. f_equal. unfold parse_line. now rewrite E.
  - rewrite <- IH. f_equal. symmetry. apply parse_line_strip.
Qed.

(** X2. The parser reads the lines of a narrative through [strip] only:
    blank lines and the white space around a line change nothing of what
    it catches. *)
Theorem X2_parse_ignores_blank_lines_and_margins text :
  parse_lines text =
  fold_left parse_line
    (map PyStr.strip
       (filter (fun raw => negb (blank raw)) (PyStr.split PyStr.newline text)))
    initial.
Proof. apply fold_parse_line_stripped. Qed.

Lemma str_list_eq_dec (a b : list str) : {a = b} + {a <> b}.
Proof. apply list_eq_dec, list_eq_dec, N.eq_dec. Qed.

Lemma parse_line_section st raw s :
  current_section (parse_line st raw) = Some s ->
  current_section st = Some s \/ section_token (PyStr.strip raw) = Some s.
Proof.
  unfold parse_line.
  destruct (PyStr.strip raw) as [|c line]; [now left|].
  destruct (section_token (c :: line)) as [t|]; [simpl; intros [= <-]; now right|].
  destruct (is_bullet (c :: line)).
  - unfold append_item. destruct (current_section st) as [[]|] eqn:E; simpl; rewrite ?E; auto.
  - destruct (current_section st) as [[]|] eqn:E, (l_summary st); simpl; rewrite ?E; auto.
Qed.

Lemma parse_line_changes st raw :
  (l_findings (parse_line st raw) <> l_findings st ->
   current_section st = Some FINDINGS) /\
  (l_summary (parse_line st raw) <> l_summary st ->
   current_section st = Some SUMMARY).
Proof.
  unfold parse_line.
  destruct (PyStr.strip raw) as [|c line]; [split; congruence|].
  destruct (section_token (c :: line)) as [t|]; [split; simpl; congruence|].
  destruct (is_bullet (c :: line)).
  - unfold append_item. destruct (current_section st) as [[]|]; simpl; split; congruence.
  - destruct (current_section st) as [[]|], (l_summary st); simpl; split; congruence.
Qed.

Lemma fold_parse_line_headers lines :
  forall st,
    (forall s,
        current_section (fold_left parse_line lines st) = Some s ->
        current_section st = Some s \/
        exists raw, In raw lines /\ section_token (PyStr.strip raw) = Some s) /\
    (l_findings (fold_left parse_line lines st) <> l_findings st ->
     current_section st = Some FINDINGS \/
     exists raw, In raw lines /\ section_token (PyStr.strip raw) = Some FINDINGS) /\
    (l_summary (fold_left parse_line lines st) <> l_summary st ->
     current_section st = Some SUMMARY \/
     exists raw, In raw lines /\ section_token (PyStr.strip raw) = Some SUMMARY).
Proof.
  induction lines as [|raw rest IH]; intros st; simpl.
  - repeat split; try congruence. intros s H; now left.
  - destruct (IH (parse_line st raw)) as (Hc & Hf & Hs).
    assert (forall s,
        current_section (parse_line st raw) = Some s \/
        (exists raw0, In raw0 rest /\ section_token (PyStr.strip raw0) = Some s) ->
        current_section st = Some s \/
        exists raw0, (raw = raw0 \/ In raw0 rest) /\
                     section_token (PyStr.strip raw0) = Some s) as Hstep.
    { intros s [H|(raw0 & Hin & H)].
      - apply parse_line_section in H. destruct H as [H|H]; [now left|].
        right. exists raw. auto.
      - right. exists raw0. auto. }
    destruct (parse_line_changes st raw) as (Hf0 & Hs0).
    repeat split.
    + intros s H. apply Hstep, Hc, H.
    + intros H.
      destruct (str_list_eq_dec (l_findings (parse_line st raw)) (l_findings st)) as [E|E].
      * apply Hstep, Hf. now rewrite E.
      * left. now apply Hf0.
    + intros H.
      destruct (list_eq_dec N.eq_dec (l_summary (parse_line st raw)) (l_summary st)) as [E|E].
      * apply Hstep, Hs. now rewrite E.
      * left. now apply Hs0.
Qed.

(** X3. The parser accepts a narrative only when one of its lines switches
    to the summary section (it holds "summary" or "executive") and another
    switches to the findings section (it holds "finding" and neither of the
    two former words); any other narrative gives the deterministic
    report. *)
Theorem X3_accepted_narrative_has_headers text :
  accepted text -> header text SUMMARY /\ header text FINDINGS.
Proof.
  intros [Hs Hf]. unfold header.
  destruct (fold_parse_line_headers (PyStr.split PyStr.newline text) initial)
    as (_ & Hf' & Hs').
  split.
  - destruct Hs' as [H|H]; [exact Hs|discriminate H|exact H].
  - destruct Hf' as [H|H]; [exact Hf|discriminate H|exact H].
Qed.

Lemma length_or_default {A : Type} (l : list A) (d : A) n :
  (1 <= n)%nat -> (1 <= List.length (or_default (firstn n l) [d]) <= n)%nat.
Proof.
  intros Hn. pose proof (firstn_le_length n l) as H1.
  pose proof (length_firstn n l) as H2.
  destruct (firstn n l) as [|x xs] eqn:E; simpl in *; lia.
Qed.

Lemma mock_report_sizes analysis_summary :
  (List.length (findings (_generate_mock_report analysis_summary)) <= 3)%nat /\
  (2 <= List.length (recommendations (_generate_mock_report analysis_summary)) <= 5)%nat /\
  (List.length (priority_actions (_generate_mock_report analysis_summary)) <= 3)%nat.
Proof.
  unfold _generate_mock_report; cbn [findings recommendations priority_actions].
  destruct (0 <? idle_count analysis_summary)%Z,
    (0 <? underutilized_count analysis_summary)%Z,
    (0 <? high_cost_anomaly_count analysis_summary)%Z,
    (nonempty (idle_resources analysis_summary)),
    (nonempty (underutilized_resources analysis_summary)),
    (nonempty (high_cost_anomalies analysis_summary));
    rewrite ?length_app; simpl; lia.
Qed.

Lemma parse_report_sizes text analysis_summary :
  let report := _parse_ai_response text analysis_summary in
  summary report <> [] /\
  (List.length (findings report) <= 10)%nat /\
  (1 <= List.length (recommendations report) <= 10)%nat /\
  (List.length (priority_actions report) <= 5)%nat.
Proof.
  unfold _parse_ai_response.
  destruct (l_summary (parse_lines text)) as [|c line] eqn:Es;
    [|destruct (l_findings (parse_lines text)) as [|f fs] eqn:Ef]; simpl negb; simpl orb;
    cbv iota.
  1, 2: pose proof (mock_report_sizes analysis_summary) as (H1 & H2 & H3);
    repeat split; try lia; discriminate.
  cbn [summary findings recommendations priority_actions or_default].
  pose proof (length_or_default (f :: fs) (lit "Review cost data for optimization opportunities") 10).
  pose proof (length_or_default (l_recommendations (parse_lines text)) (lit "Implement cost monitoring") 10).
  pose proof (length_or_default (l_priority_actions (parse_lines text)) (lit "Review findings") 5).
  repeat split; try lia; discriminate.
Qed.

(** X4. Whatever the narrative, the report [_parse_ai_response] returns has
    at most 10 findings, between 1 and 10 recommendations and at most 5
    priority actions, and its summary text is not empty. *)
Theorem X4_report_sizes text analysis_summary :
  let report := _parse_ai_response text analysis_summary in
  summary report <> [] /\
  (List.length (findings report) <= 10)%nat /\
  (1 <= List.length (recommendations report) <= 10)%nat /\
  (List.length (priority_actions report) <= 5)%nat.
Proof. apply parse_report_sizes. Qed.

(** X5. A narrative the parser accepts gives a report with no empty field:
    its summary is the line caught, its findings are the first 10 caught,
    and its recommendations and priority actions are the first 10 and the
    first 5 caught, or one placeholder each where none was caught. *)
Theorem X5_accepted_report_has_no_empty_field text analysis_summary :
  accepted text ->
  let st := parse_lines text in
  let report := _parse_ai_response text analysis_summary in
  summary report = l_summary st /\
  findings report = firstn 10 (l_findings st) /\
  summary report <> [] /\
  findings report <> [] /\
  recommendations report <> [] /\
  priority_actions report <> [] /\
  (l_recommendations st <> [] ->
   recommendations report = firstn 10 (l_recommendations st)) /\
  (l_priority_actions st <> [] ->
   priority_actions report = firstn 5 (l_priority_actions st)) /\
  (l_recommendations st = [] ->
   recommendations report = [lit "Implement cost monitoring"]) /\
  (l_priority_actions st = [] -> priority_actions report = [lit "Review findings"]).
Proof.
  intros [Hs Hf]. unfold _parse_ai_response.
  destruct (l_summary (parse_lines text)) as [|c line]; [congruence|].
  destruct (l_findings (parse_lines text)) as [|f fs]; [congruence|].
  cbn.
  destruct (l_recommendations (parse_lines text)) as [|r rs],
    (l_priority_actions (parse_lines text)) as [|p ps];
    cbn; repeat split; congruence.
Qed.

Lemma parse_line_trimmed st raw :
  PyStr.strip (l_summary st) = l_summary st ->
  (forall item, In item (items st) -> PyStr.strip item = item) ->
  PyStr.strip (l_summary (parse_line st raw)) = l_summary (parse_line st raw) /\
  (forall item, In item (items (parse_line st raw)) -> PyStr.strip item = item).
Proof.
  intros Hs Hi. split.
  - unfold parse_line. destruct (PyStr.strip raw) as [|c line] eqn:E; trivial.
    destruct (section_token (c :: line)); trivial.
    destruct (is_bullet (c :: line)).
    + unfold append_item. now destruct (current_section st) as [[]|].
    + destruct (current_section st) as [[]|]; trivial.
      destruct (l_summary st) eqn:El; [|now rewrite El].
      simpl. rewrite <- E. apply strip_idem.
  - intros item H. apply parse_line_items in H.
    destruct H as [H|(_ & _ & ->)]; [now apply Hi|].
    unfold bullet_item. apply strip_idem.
Qed.

(** X17. What the parser catches is trimmed: the summary line and every
    item of the three lists have no white space at either end (an item may
    be empty, when a line holds bullet marks only). *)
Theorem X17_caught_texts_are_trimmed text :
  PyStr.strip (l_summary (parse_lines text)) = l_summary (parse_lines text) /\
  (forall item,
      In item (l_findings (parse_lines text)) \/
      In item (l_recommendations (parse_lines text)) \/
      In item (l_priority_actions (parse_lines text)) ->
      PyStr.strip item = item) /\
  l_findings (parse_lines (lit "Findings" ++ PyStr.newline :: lit "-*- ")) = [[]].
Proof.
  assert (forall lines st,
      PyStr.strip (l_summary st) = l_summary st ->
      (forall item, In item (items st) -> PyStr.strip item = item) ->
      PyStr.strip (l_summary (fold_left parse_line lines st)) =
        l_summary (fold_left parse_line lines st) /\
      (forall item, In item (items (fold_left parse_line lines st)) ->
                    PyStr.strip item = item)) as H.
  { induction lines as [|raw rest IH]; intros st Hs Hi; simpl; [now split|].
    destruct (parse_line_trimmed st raw Hs Hi) as [Hs' Hi']. now apply IH. }
  destruct (H (PyStr.split PyStr.newline text) initial) as [Hs Hi];
    [reflexivity|intros item []|].
  split; [exact Hs|]. split; [|vm_compute; reflexivity].
  intros item Hin. apply Hi. unfold items. fold (parse_lines text).
  rewrite !in_app_iff. exact Hin.
Qed.

End Parser.

(** ** Further properties of the analysis *)

Section Analysis.

Import Models Spec Further.

(** Below 5 is below 20, on binary64 numbers. *)
Lemma ltb_5_20 (x : float) : (x <? 5.0)%float = true -> (x <? 20.0)%float = true.
Proof.
  rewrite !ltb_spec.
  change (Prim2SF 5.0%float) with (S754_finite false 5629499534213120 (-50)).
  change (Prim2SF 20.0%float) with (S754_finite false 5629499534213120 (-48)).
  destruct (Prim2SF x) as [s|s| |s m e]; trivial.
  destruct s; trivial. unfold SFltb, SFcompare.
  destruct (Z.compare_spec e (-50)) as [->|H|H]; try discriminate.
  - reflexivity.
  - intros _. assert (e < -48)%Z as H' by lia.
    apply Z.compare_lt_iff in H'. now rewrite H'.
Qed.

(** X7. An active record that is idle is underutilized as well. The
    converse fails: an active record at 10% and 10% is underutilized and is
    not idle. *)
Theorem X7_active_idle_is_underutilized :
  (forall record,
      status record = ACTIVE ->
      CostAnalyzer.is_idle record = Ok true ->
      CostAnalyzer.is_underutilized record = Ok true) /\
  CostAnalyzer.is_underutilized Samples.active_10 = Ok true /\
  CostAnalyzer.is_idle Samples.active_10 = Ok false.
Proof.
  split; [|split; vm_compute; reflexivity].
  intros record Hs. unfold CostAnalyzer.is_idle, CostAnalyzer.is_underutilized.
  rewrite Hs. change (CostAnalyzer.status_eqb ACTIVE IDLE) with false.
  change (CostAnalyzer.status_eqb ACTIVE ACTIVE) with true. cbv iota.
  destruct (CostAnalyzer.parse_usage_percentage (usage_cpu_avg record)) as [cpu|];
    [|discriminate].
  destruct (CostAnalyzer.parse_usage_percentage (usage_mem_avg record)) as [mem|];
    [|discriminate].
  simpl. intros [= H]. apply andb_prop in H as [Hc Hm].
  change CostAnalyzer.UNDERUTILIZED_CPU_THRESHOLD with 20.0%float.
  change CostAnalyzer.UNDERUTILIZED_MEM_THRESHOLD with 20.0%float.
  now rewrite (ltb_5_20 _ Hc), (ltb_5_20 _ Hm).
Qed.

(** X8. [analyze_records] returns a summary for the empty cohort only, the
    summary of zeros; for every cohort that holds a record it raises a
    [ValueError], whatever the usage values of the records are. *)
Theorem X8_analysis_returns_for_the_empty_cohort_only records :
  (CostAnalyzer.analyze_records records = Raise ValueError <-> records <> []) /\
  (forall summary,
      CostAnalyzer.analyze_records records = Ok summary <->
      records = [] /\ summary = Samples.empty_summary).
Proof.
  split.
  - destruct records as [|record rest].
    + split; [discriminate|congruence].
    + rewrite analyze_records_raises. split; [discriminate|trivial].
  - intros summary. split; [apply analyze_records_returns|].
    now intros [-> ->].
Qed.

Lemma ltb_len_nonempty {A : Type} (l : list A) :
  (0 <? CostAnalyzer.len l)%Z = AIService.nonempty l.
Proof. destruct l; reflexivity. Qed.

(** X9. The deterministic report of a summary whose counts are the lengths
    of its collections has one finding and one priority action for each
    collection that is not empty, and two recommendations more. A summary
    with a count above an empty collection gets the finding without the
    action. *)
Theorem X9_report_of_a_consistent_summary :
  (forall summary,
      consistent summary ->
      let report := AIService._generate_mock_report summary in
      let categories :=
        (List.length (filter (fun b : bool => b)
                        [AIService.nonempty (idle_resources summary);
                         AIService.nonempty (underutilized_resources summary);
                         AIService.nonempty (high_cost_anomalies summary)])) in
      List.length (findings report) = categories /\
      List.length (priority_actions report) = categories /\
      List.length (recommendations report) = (categories + 2)%nat) /\
  List.length (findings (AIService._generate_mock_report (summary_with_idle 0))) = 1%nat /\
  priority_actions (AIService._generate_mock_report (summary_with_idle 0)) = [].
Proof.
  split; [|split; reflexivity].
  intros summary (Hu & Hi & Ha).
  unfold AIService._generate_mock_report;
    cbn [findings recommendations priority_actions].
  rewrite Hu, Hi, Ha, !ltb_len_nonempty.
  destruct (idle_resources summary), (underutilized_resources summary),
    (high_cost_anomalies summary); cbn; repeat split.
Qed.

End Analysis.

(** ** The service object and the endpoints *)

Section Endpoints.

Import Models Spec Further.

(** X10. Building the service raises the missing-key error exactly when the
    mock is off and neither the argument nor the environment holds a key
    that is not empty. The global service of [app/main.py] turns the mock on
    when the environment holds no key, so building it never raises that
    error, and a service with the mock on is always built. *)
Theorem X10_service_construction :
  (forall use_mock api_key getenv openai_installed,
      Service.__init__ use_mock api_key getenv openai_installed =
        inr Service.ValueError_api_key_required <->
      use_mock = false /\ Service.truthy api_key = false /\
      Service.truthy getenv = false) /\
  (forall getenv openai_installed,
      Main.ai_service getenv openai_installed <>
      inr Service.ValueError_api_key_required) /\
  (forall getenv openai_installed self,
      Main.ai_service getenv openai_installed = inl self ->
      Service.use_mock self = negb (Service.truthy getenv)) /\
  (forall api_key getenv openai_installed,
      exists self,
        Service.__init__ true api_key getenv openai_installed = inl self /\
        Service.use_mock self = true).
Proof.
  repeat split.
  - unfold Service.__init__, Service.py_or in H.
    destruct use_mock; trivial. simpl in H.
    destruct (Service.truthy api_key); simpl in H; destruct openai_installed; discriminate.
  - unfold Service.__init__, Service.py_or in H.
    destruct use_mock; [discriminate|].
    destruct (Service.truthy api_key) eqn:E; trivial.
    rewrite E in H. destruct openai_installed; discriminate.
  - unfold Service.__init__, Service.py_or in H.
    destruct use_mock; [discriminate|].
    destruct (Service.truthy api_key) eqn:E.
    + rewrite E in H. destruct openai_installed; discriminate.
    + destruct (Service.truthy getenv); trivial. destruct openai_installed; discriminate.
  - intros (-> & Ha & Hg). unfold Service.__init__, Service.py_or.
    now rewrite Ha, Hg.
  - intros getenv openai_installed.
    unfold Main.ai_service, Service.__init__, Service.py_or.
    destruct (Service.truthy getenv) eqn:E; simpl; rewrite ?E; simpl;
      destruct openai_installed; discriminate.
  - intros getenv openai_installed self.
    unfold Main.ai_service, Service.__init__, Service.py_or.
    destruct (Service.truthy getenv) eqn:E; simpl; rewrite ?E; simpl;
      destruct openai_installed; intros [= <-]; reflexivity.
  - intros api_key getenv openai_installed. eexists. split; reflexivity.
Qed.

Section Providers.

Variable float_str : float -> str.
Variable chat : str -> str + str.


(** X12. The report endpoint returns no report: it answers 404 for the
    empty store and fails with the exception of the analysis, which it does
    not catch, for every store that holds a record, whatever the provider,
    the key and the mock flag; the service is not reached. *)
Theorem X12_report_endpoint_fails
    cost_records_store global_service getenv openai_installed use_mock :
  Main.generate_cost_savings_report float_str chat cost_records_store
    global_service getenv openai_installed use_mock =
  match cost_records_store with
  | [] => Main.Fails (Main.HTTPException 404 Main.NO_DATA)
  | _ :: _ => Main.Fails (Main.Uncaught (Main.Analysis ValueError))
  end.
Proof.
  unfold Main.generate_cost_savings_report.
  destruct cost_records_store as [|record rest]; trivial.
  now rewrite analyze_records_raises.
Qed.

End Providers.

(** X18. The prompt shows the figures, the counts and at most the first
    five entries of each collection: two summaries that agree on these give
    the same prompt, so a sixth resource of a collection is never sent to the
    provider. *)
Theorem X18_prompt_shows_first_five (float_str : float -> str) a b :
  same_first_five a b ->
  Service._build_prompt float_str a = Service._build_prompt float_str b.
Proof.
  intros (H1 & H2 & H3 & H4 & H5 & H6 & H7 & H8 & H9 & H10).
  unfold Service._build_prompt.
  now rewrite H1, H2, H3, H4, H5, H6, H7, H8, H9, H10.
Qed.

(** X13. No endpoint that reads the store returns data about a stored
    record. For a store that holds a record, the analysis endpoint and the
    records endpoint fail with the exception of the analysis, which they do
    not catch, and the endpoint for one service fails with the exception of
    the construction of the response for a name that is stored and answers
    404 for a name that is not. For the empty store the records endpoint
    returns the empty list and the two others answer 404. *)
Theorem X13_read_endpoints cost_records_store service_name :
  Main.analyze_costs cost_records_store =
    match cost_records_store with
    | [] => Main.Fails (Main.HTTPException 404 Main.NO_DATA)
    | _ :: _ => Main.Fails (Main.Uncaught (Main.Analysis ValueError))
    end /\
  Main.get_all_records cost_records_store =
    match cost_records_store with
    | [] => Main.Returns []
    | _ :: _ => Main.Fails (Main.Uncaught (Main.Analysis ValueError))
    end /\
  Main.get_record_by_service cost_records_store service_name =
    match cost_records_store with
    | [] => Main.Fails (Main.HTTPException 404 (lit "No cost data available"))
    | _ :: _ =>
        if existsb (fun r => PyStr.eqb (service r) service_name) cost_records_store
        then Main.Fails (Main.Uncaught (Main.Analysis ValueError))
        else Main.Fails (Main.HTTPException 404
                           (lit "Service '" ++ service_name ++ lit "' not found"))
    end.
Proof.
  unfold Main.analyze_costs, Main.get_all_records, Main.get_record_by_service.
  destruct cost_records_store as [|record rest]; [repeat split|].
  rewrite analyze_records_raises. split; [reflexivity|]. split; [reflexivity|].
  set (store := record :: rest).
  set (p := fun r => PyStr.eqb (service r) service_name).
  destruct (find p store) as [found|] eqn:Hf.
  - rewrite respond_raises.
    assert (existsb p store = true) as ->; [|reflexivity].
    apply existsb_exists. exists found.
    apply find_some in Hf. exact Hf.
  - assert (existsb p store = false) as ->; [|reflexivity].
    apply not_true_is_false. intros H. apply existsb_exists in H.
    destruct H as (r & Hin & Hp).
    now rewrite (find_none _ _ Hf r Hin) in Hp.
Qed.

Lemma fold_valid_rows rows :
  forall records,
    fold_left
      (fun (records : list CostRecord) (row : option CostRecord) =>
         match row with
         | Some record => records ++ [record]
         | None => records
         end) rows records =
    records ++ valid_rows rows.
Proof.
  induction rows as [|[record|] rest IH]; intros records; simpl.
  - now rewrite app_nil_r.
  - rewrite IH. now rewrite <- app_assoc.
  - apply IH.
Qed.

Section Uploads.

Variable describe : exn -> str.
Variable describe_http : Z -> str -> str.

(** X15. An upload is answered 400 only for a file name that does not end
    in ".csv"; a file with no valid row is answered 500 (the 400 raised for it
    is caught and wrapped), and both leave the store as it was. As soon as
    one row is valid the store is replaced by the valid rows, also when the
    analysis then fails and the answer is 500. *)
Theorem X15_upload_failures cost_records_store filename rows :
  let answer := Main.upload_csv describe describe_http cost_records_store filename rows in
  (forall detail,
      fst answer = Main.Fails (Main.HTTPException 400 detail) <->
      Main.endswith filename (lit ".csv") = false /\
      detail = lit "File must be a CSV file") /\
  (Main.endswith filename (lit ".csv") = false -> snd answer = cost_records_store) /\
  (forall parsed,
      Main.endswith filename (lit ".csv") = true -> rows = inl parsed ->
      valid_rows parsed = [] ->
      answer =
      (Main.Fails
         (Main.HTTPException 500
            (lit "Error processing CSV file: " ++
             describe_http 400 (lit "No valid records found in CSV file"))),
       cost_records_store)) /\
  (forall parsed,
      Main.endswith filename (lit ".csv") = true -> rows = inl parsed ->
      valid_rows parsed <> [] ->
      snd answer = valid_rows parsed /\
      (forall e,
          CostAnalyzer.analyze_records (valid_rows parsed) = Raise e ->
          fst answer =
          Main.Fails (Main.HTTPException 500
                        (lit "Error processing CSV file: " ++ describe e)))).
Proof.
  unfold Main.upload_csv.
  destruct (Main.endswith filename (lit ".csv")) eqn:Hname; simpl negb; cbv iota.
  - assert (forall (o : Main.outcome Main.CSVUploadResponse) (st : list CostRecord) detail,
               (forall d, o <> Main.Fails (Main.HTTPException 400 d)) ->
               fst (o, st) = Main.Fails (Main.HTTPException 400 detail) <->
               true = false /\ detail = lit "File must be a CSV file") as Hno.
    { intros o st detail Ho. cbn. split; [intros E; now apply Ho in E|now intros [? _]]. }
    destruct rows as [parsed|message].
    + rewrite fold_valid_rows. simpl app.
      destruct (valid_rows parsed) as [|r0 rest] eqn:Hv.
      * split; [intros detail; apply Hno; discriminate|].
        split; [intros H; discriminate H|].
        split; [reflexivity|].
        intros parsed' _ [= <-] Hne. congruence.
      * destruct (CostAnalyzer.analyze_records (r0 :: rest)) as [s|e] eqn:Ha.
        -- split; [intros detail; apply Hno; discriminate|].
           split; [intros H; discriminate H|].
           split; [intros parsed' _ [= <-] Hnil; congruence|].
           intros parsed' _ [= <-] _. rewrite Hv.
           split; [reflexivity|intros e He; rewrite Ha in He; discriminate He].
        -- split; [intros detail; apply Hno; discriminate|].
           split; [intros H; discriminate H|].
           split; [intros parsed' _ [= <-] Hnil; congruence|].
           intros parsed' _ [= <-] _. rewrite Hv.
           split; [reflexivity|].
           intros e' He. rewrite Ha in He. now injection He as <-.
    + split; [intros detail; apply Hno; discriminate|].
      split; [intros H; discriminate H|].
      split; intros parsed _ [=].
  - split.
    + intros detail. cbn. split; [now intros [= <-]|now intros [_ ->]].
    + split; [reflexivity|]. split; intros parsed [=].
Qed.

(** X16. No upload is answered with a success: the answer is 400 for a file
    name that does not end in ".csv" and 500 for every other upload, since
    the analysis of the valid rows raises as soon as there is one. *)
Theorem X16_no_upload_succeeds cost_records_store filename rows :
  let answer := Main.upload_csv describe describe_http cost_records_store filename rows in
  (forall response, fst answer <> Main.Returns response) /\
  exists detail,
    fst answer =
    Main.Fails
      (Main.HTTPException (if Main.endswith filename (lit ".csv") then 500 else 400)
         detail).
Proof.
  unfold Main.upload_csv.
  destruct (Main.endswith filename (lit ".csv")); simpl negb; cbv iota.
  - destruct rows as [parsed|message].
    + rewrite fold_valid_rows. simpl app.
      destruct (valid_rows parsed) as [|record rest].
      * split; [discriminate|]. eexists; reflexivity.
      * rewrite analyze_records_raises.
        split; [discriminate|]. eexists; reflexivity.
    + split; [discriminate|]. eexists; reflexivity.
  - split; [discriminate|]. eexists; reflexivity.
Qed.

End Uploads.

End Endpoints.

(** ** The further properties at sample inputs *)

Section FurtherWitnesses.

Import Models Spec Further AIService.

Lemma X1_witness :
  l_summary (parse_lines (narrative_head ++ PyStr.newline :: lit "Summary of the week")) =
  lit "Spending is dominated by two idle hosts.".
Proof.
  rewrite (proj1 (X1_longer_narrative_only_adds narrative_head
                    (lit "Summary of the week"))).
  - vm_compute. reflexivity.
  - vm_compute. discriminate.
Defined.

Lemma X3_witness :
  accepted narrative /\ header narrative SUMMARY /\ header narrative FINDINGS.
Proof.
  assert (accepted narrative) as H by (split; vm_compute; discriminate).
  split; [exact H|]. exact (X3_accepted_narrative_has_headers narrative H).
Defined.

Lemma X5_witness :
  summary (_parse_ai_response narrative Samples.empty_summary) =
    lit "Spending is dominated by two idle hosts." /\
  findings (_parse_ai_response narrative Samples.empty_summary) =
    [lit "two hosts are idle"; lit "one database is oversized"] /\
  priority_actions (_parse_ai_response narrative Samples.empty_summary) =
    [lit "Review findings"].
Proof.
  destruct (X5_accepted_report_has_no_empty_field narrative Samples.empty_summary)
    as (H1 & H2 & _ & _ & _ & _ & _ & _ & _ & H10).
  - split; vm_compute; discriminate.
  - rewrite H1, H2, H10; [|vm_compute; reflexivity].
    repeat split; vm_compute; reflexivity.
Defined.

Lemma X7_witness : CostAnalyzer.is_underutilized Samples.active_3 = Ok true.
Proof.
  apply (proj1 X7_active_idle_is_underutilized); [reflexivity|vm_compute; reflexivity].
Defined.

Lemma X8_witness :
  CostAnalyzer.analyze_records [Samples.active_10; Samples.idle_50] = Raise ValueError.
Proof.
  apply (proj1 (X8_analysis_returns_for_the_empty_cohort_only
                  [Samples.active_10; Samples.idle_50])).
  discriminate.
Defined.

Lemma X9_witness :
  consistent (summary_with_idle 7) /\
  List.length (findings (_generate_mock_report (summary_with_idle 7))) = 1%nat /\
  List.length (priority_actions (_generate_mock_report (summary_with_idle 7))) = 1%nat /\
  List.length (recommendations (_generate_mock_report (summary_with_idle 7))) = 3%nat.
Proof.
  assert (consistent (summary_with_idle 7)) as H by (repeat split).
  split; [exact H|].
  exact (proj1 X9_report_of_a_consistent_summary (summary_with_idle 7) H).
Defined.


Lemma X12_witness :
  Main.generate_cost_savings_report sample_float_str sample_chat Samples.scenario
    {| Service.use_mock := false; Service.api_key := Some (lit "sk-test") |}
    (Some (lit "sk-test")) true false =
  Main.Fails (Main.Uncaught (Main.Analysis ValueError)).
Proof.
  exact (X12_report_endpoint_fails sample_float_str sample_chat Samples.scenario
           _ _ true false).
Defined.

Lemma X13_witness :
  Main.get_all_records Samples.scenario =
    Main.Fails (Main.Uncaught (Main.Analysis ValueError)) /\
  Main.get_record_by_service Samples.scenario (lit "B") =
    Main.Fails (Main.Uncaught (Main.Analysis ValueError)) /\
  Main.get_record_by_service Samples.scenario (lit "D") =
    Main.Fails (Main.HTTPException 404 (lit "Service 'D' not found")).
Proof.
  split; [exact (proj1 (proj2 (X13_read_endpoints Samples.scenario (lit "B"))))|].
  split.
  - exact (proj2 (proj2 (X13_read_endpoints Samples.scenario (lit "B")))).
  - exact (proj2 (proj2 (X13_read_endpoints Samples.scenario (lit "D")))).
Defined.

Lemma X15_witness :
  Main.upload_csv sample_describe sample_describe_http Samples.scenario
    (lit "costs.csv") (inl [None; None]) =
  (Main.Fails
     (Main.HTTPException 500
        (lit "Error processing CSV file: 400: No valid records found in CSV file")),
   Samples.scenario).
Proof.
  rewrite (proj1 (proj2 (proj2 (X15_upload_failures sample_describe sample_describe_http
                                  Samples.scenario (lit "costs.csv")
                                  (inl [None; None]))))
             [None; None]); reflexivity.
Defined.

Lemma X16_witness :
  exists detail,
    fst (Main.upload_csv sample_describe sample_describe_http [] (lit "costs.csv")
           (inl upload_rows)) =
    Main.Fails (Main.HTTPException 500 detail).
Proof.
  exact (proj2 (X16_no_upload_succeeds sample_describe sample_describe_http []
                  (lit "costs.csv") (inl upload_rows))).
Defined.

Lemma X18_witness :
  Service._build_prompt sample_float_str (summary_with_idle 7) =
  Service._build_prompt sample_float_str (summary_with_idle 5).
Proof.
  apply X18_prompt_shows_first_five. repeat split.
Defined.

End FurtherWitnesses.
